(** * LeftSTAMPi anomaly detector (aeon/anomaly_detection/_left_stampi.py)

    A shallow embedding of the [LeftSTAMPi] adapter class: parameter
    validation, the incremental update loop over the wrapped matrix-profile
    object, the in-place zeroing of the warm-up region and the reverse
    windowing of the left profile.

    Conventions.
    - Python [int]s are [Z]; [float]s are exact rationals [Q] (no [inf], no
      [nan]); a one-dimensional [numpy] array is a [list Q].
    - A method of the class is a computation in the monad [M]: it receives
      the detector, and yields an outcome (a value or a raised exception)
      together with the detector as the call left it.  A raised exception
      does not roll back the attribute writes that preceded it.
    - [stumpy] is a third-party package: its incremental matrix profile is a
      parameter of the development (constructor [stumpi], method [update]),
      and every property that depends on what it computes names the
      assumption it uses. *)

From Stdlib Require Import String DecimalString.
From Stdlib Require Import ZArith QArith Qabs Qminmax List Bool Lia.
Import ListNotations.

Local Open Scope Z_scope.

(** A lemma depends on the engine only through what its statement names. *)
#[local] Set Default Proof Using "Type".

(** ** Exceptions and the method monad *)

Inductive exn : Type :=
| ValueError (msg : string)
| TypeError (msg : string)
| AttributeError (msg : string)
| ModuleNotFoundError (msg : string).

Inductive outcome (A : Type) : Type :=
| Ok (a : A)
| Raise (e : exn).

Arguments Ok {A} a.
Arguments Raise {A} e.

Definition M (S A : Type) : Type := S -> outcome A * S.

Definition ret {S A : Type} (a : A) : M S A := fun s => (Ok a, s).

Definition bind {S A B : Type} (c : M S A) (f : A -> M S B) : M S B :=
  fun s =>
    match c s with
    | (Ok a, s') => f a s'
    | (Raise e, s') => (Raise e, s')
    end.

Definition raise {S A : Type} (e : exn) : M S A := fun s => (Raise e, s).

Definition get {S : Type} : M S S := fun s => (Ok s, s).

Definition put {S : Type} (s : S) : M S unit := fun _ => (Ok tt, s).

Notation "x <- c1 ;; c2" := (bind c1 (fun x => c2))
  (at level 61, c1 at next level, right associativity).
Notation "c1 ;; c2" := (bind c1 (fun _ => c2))
  (at level 61, right associativity).

(** [for x in xs: body(x)] *)
Fixpoint for_each {S A : Type} (xs : list A) (body : A -> M S unit) : M S unit :=
  match xs with
  | [] => ret tt
  | x :: xs' => body x ;; for_each xs' body
  end.

Definition is_ValueError {A : Type} (r : outcome A) : bool :=
  match r with
  | Raise (ValueError _) => true
  | _ => false
  end.

(** ** Python slices of a one-dimensional array *)

(** Position that the slice bound [i] denotes in a sequence of length [len]:
    a negative bound counts from the end, and every bound is clipped to
    [0 .. len]. *)
Definition slice_index (i : Z) (len : nat) : nat :=
  if i <? 0 then Z.to_nat (Z.max 0 (Z.of_nat len + i))
  else Nat.min (Z.to_nat i) len.

Definition slice_bound (b : option Z) (default len : nat) : nat :=
  match b with
  | None => default
  | Some i => slice_index i len
  end.

(** [X[:stop]] *)
Definition slice_to {A : Type} (stop : option Z) (X : list A) : list A :=
  firstn (slice_bound stop (length X) (length X)) X.

(** [X[start:]] *)
Definition slice_from {A : Type} (start : option Z) (X : list A) : list A :=
  skipn (slice_bound start 0%nat (length X)) X.

(** [X[:stop] = v], the array after the slice assignment of a scalar. *)
Definition slice_fill_to {A : Type} (stop : option Z) (v : A) (X : list A) : list A :=
  let e := slice_bound stop (length X) (length X) in
  repeat v e ++ skipn e X.

(** ** The wrapped matrix-profile object *)

(** What the detector hands to [update]: [_fit_predict] passes the scalar
    [x] of its loop, [_predict] passes the array [X] it was called with. *)
Inductive upd_arg : Type :=
| Scalar (x : Q)
| Arr (xs : list Q).

(** The object returned by [stumpy.stumpi].  The detector reads and writes
    only its attribute [_left_P]; everything else the object holds is
    [rest], of a type chosen by the engine. *)
Record stumpi_obj (St : Type) : Type := Build_stumpi_obj {
  rest : St;
  _left_P : list Q
}.

Arguments Build_stumpi_obj {St} rest _left_P.
Arguments rest {St} s.
Arguments _left_P {St} s.

(** ** Reverse windowing *)

(** Modelled from the spec: part of [reverse_windowing] below.  The profile
    values of the windows that contain point [i], for windows of width [m]
    over the window-aligned array [y]: windows
    [max 0 (i - m + 1) .. min i (length y - 1)], in that order. *)
Definition covering (y : list Q) (m i : nat) : list Q :=
  skipn (S i - m) (firstn (S i) y).

(** Modelled from the spec: [aeon.utils.windowing.reverse_windowing] is
    imported by the detector but is not part of the sources.  The spec
    describes it as the utility that reverses window-level scores to
    point-level scores: [length y] windows of width [window_size] stand for
    [length y + window_size - 1] time points, and a point is scored from the
    profile values of the windows it lies in.  How the overlapping windows of
    one point are combined is left open by the spec, so the combination is
    the parameter [reduction]. *)
Definition reverse_windowing (reduction : list Q -> Q) (y : list Q)
    (window_size : Z) : list Q :=
  let m := Z.to_nat window_size in
  map (fun i => reduction (covering y m i)) (seq 0 (length y + m - 1)).

(** Two choices of [reduction]: the arithmetic mean of the windows of a
    point, and the value of the latest window of a point, which is the
    window that starts at the point wherever there is one. *)
Definition Qsum (l : list Q) : Q := fold_right Qplus 0%Q l.

Definition Qmean (l : list Q) : Q :=
  Qred (Qsum l / inject_Z (Z.of_nat (length l))).

Definition latest_window (l : list Q) : Q := last l 0%Q.

(** ** A reference engine

    A brute-force left profile, to have one concrete engine behind the
    interface: the distance of subsequence [i] to the nearest earlier
    subsequence under the L1 distance, [0] for the first subsequence, which
    has no earlier one.  It ignores [egress], [normalize], [p] and [k]. *)

Definition l1_dist (a b : list Q) : Q :=
  Qsum (map (fun xy => Qabs (fst xy - snd xy)) (combine a b)).

Definition subseq (T : list Q) (m i : nat) : list Q := firstn m (skipn i T).

Definition left_dist (T : list Q) (m i : nat) : Q :=
  match map (fun j => l1_dist (subseq T m j) (subseq T m i)) (seq 0 i) with
  | [] => 0%Q
  | d :: ds => fold_right Qmin d ds
  end.

Definition ref_left_profile (T : list Q) (m : nat) : list Q :=
  map (left_dist T m) (seq 0 (length T + 1 - m)).

Definition ref_stumpi (T : list Q) (m : Z) (egress normalize : bool) (p : Q)
    (k : Z) : stumpi_obj (list Q * nat) :=
  Build_stumpi_obj (T, Z.to_nat m) (ref_left_profile T (Z.to_nat m)).

Definition ref_append (o : stumpi_obj (list Q * nat)) (x : Q)
    : stumpi_obj (list Q * nat) :=
  let T' := (fst (rest o) ++ [x])%list in
  let m := snd (rest o) in
  Build_stumpi_obj (T', m) (_left_P o ++ [left_dist T' m (length T' - m)]).

Definition ref_update (o : stumpi_obj (list Q * nat)) (t : upd_arg)
    : stumpi_obj (list Q * nat) :=
  match t with
  | Scalar x => ref_append o x
  | Arr [x] => ref_append o x
  | Arr _ => o
  end.

(** ** The detector *)

Definition msg_window : string :=
  "The window size must be at least 3 and at most the length of the time series.".

Definition msg_n_init_train (n : Z) : string :=
  ("The window size must be less than or equal to n_init_train (is: "
   ++ NilZero.string_of_int (Z.to_int n) ++ ")")%string.

Definition msg_k : string :=
  "The top `k` distances must be at least 1 and at most the length of the time series minus the window size.".

Definition msg_gt_None : string :=
  "'>' not supported between instances of 'int' and 'NoneType'".

Definition msg_no_update : string :=
  "'NoneType' object has no attribute 'update'".

Definition msg_no_left_P : string :=
  "'NoneType' object has no attribute '_left_P'".

Section Detector.

(** The engine: [stumpi T m egress normalize p k] and [mp.update(t)]. *)
Variable St : Type.
Variable stumpi : list Q -> Z -> bool -> bool -> Q -> Z -> stumpi_obj St.
Variable update : stumpi_obj St -> upd_arg -> stumpi_obj St.

(** Modelled from the spec: [_check_soft_dependencies] is not part of the
    sources; with [severity="error"] a missing optional dependency is an
    error raised by the check, and the check is true otherwise.
    [stumpy_installed] says whether the package can be imported. *)
Variable stumpy_installed : bool.

Variable reduction : list Q -> Q.

Record LeftSTAMPi : Type := Build_LeftSTAMPi {
  mp : option (stumpi_obj St);
  window_size : Z;
  n_init_train : option Z;
  normalize : bool;
  p : Q;
  k : Z
}.

Definition __init__ (window_size : Z) (n_init_train : option Z)
    (normalize : bool) (p : Q) (k : Z) : LeftSTAMPi :=
  Build_LeftSTAMPi None window_size n_init_train normalize p k.

(** [LeftSTAMPi()] with every default. *)
Definition default_detector : LeftSTAMPi :=
  __init__ 3 None true 2%Q 1.

Definition set_mp (self : LeftSTAMPi) (o : option (stumpi_obj St)) : LeftSTAMPi :=
  Build_LeftSTAMPi o (window_size self) (n_init_train self) (normalize self)
    (p self) (k self).

Definition set_n_init_train (self : LeftSTAMPi) (n : option Z) : LeftSTAMPi :=
  Build_LeftSTAMPi (mp self) (window_size self) n (normalize self)
    (p self) (k self).

Definition _check_params (X : list Q) : M LeftSTAMPi unit :=
  self <- get ;;
  if (window_size self <? 3) || (window_size self >? Z.of_nat (length X))
  then raise (ValueError msg_window)
  else
    match n_init_train self with
    | None => raise (TypeError msg_gt_None)
    | Some n =>
        if window_size self >? n
        then raise (ValueError (msg_n_init_train n))
        else
          if (k self <? 1) || (k self >? Z.of_nat (length X) - window_size self)
          then raise (ValueError msg_k)
          else ret tt
    end.

Definition _call_stumpi (X : list Q) : M LeftSTAMPi unit :=
  if stumpy_installed
  then
    self <- get ;;
    put (set_mp self
           (Some (stumpi X (window_size self) false (normalize self)
                    (p self) (k self))))
  else raise (ModuleNotFoundError "stumpy").

(** [self.mp.update(t)]: the object is updated in place. *)
Definition mp_update (t : upd_arg) : M LeftSTAMPi unit :=
  self <- get ;;
  match mp self with
  | None => raise (AttributeError msg_no_update)
  | Some o => put (set_mp self (Some (update o t)))
  end.

(** [lmp = self.mp._left_P; lmp[: self.n_init_train] = 0].  [lmp] is the
    array held by the object, so the assignment also changes the object. *)
Definition zero_left_P : M LeftSTAMPi (list Q) :=
  self <- get ;;
  match mp self with
  | None => raise (AttributeError msg_no_left_P)
  | Some o =>
      let lmp := slice_fill_to (n_init_train self) 0%Q (_left_P o) in
      put (set_mp self (Some (Build_stumpi_obj (rest o) lmp))) ;;
      ret lmp
  end.

(** [_fit] returns [self]; the detector after the call is the state of the
    computation.  The input is one-dimensional, so [X.squeeze()] is not
    reached. *)
Definition _fit (X : list Q) : M LeftSTAMPi unit :=
  self <- get ;;
  put (set_n_init_train self (Some (Z.of_nat (length X)))) ;;
  _check_params X ;;
  _call_stumpi X.

Definition _predict (X : list Q) : M LeftSTAMPi (list Q) :=
  mp_update (Arr X) ;;
  lmp <- zero_left_P ;;
  self <- get ;;
  ret (reverse_windowing reduction lmp (window_size self)).

Definition _fit_predict (X : list Q) : M LeftSTAMPi (list Q) :=
  _check_params X ;;
  self <- get ;;
  _call_stumpi (slice_to (n_init_train self) X) ;;
  for_each (slice_from (n_init_train self) X) (fun x => mp_update (Scalar x)) ;;
  lmp <- zero_left_P ;;
  self <- get ;;
  ret (reverse_windowing reduction lmp (window_size self)).

(** Stream mode, as in the class documentation:
    [detector.fit(X_train)], then
    [for x in X_stream: score = detector.predict(np.array([x]))].
    [predict_each] collects what each [predict] call returned. *)
Fixpoint predict_each (X_stream : list Q) : M LeftSTAMPi (list (list Q)) :=
  match X_stream with
  | [] => ret []
  | x :: xs =>
      score <- _predict [x] ;;
      scores <- predict_each xs ;;
      ret (score :: scores)
  end.

Definition stream (X_train X_stream : list Q) : M LeftSTAMPi (list (list Q)) :=
  _fit X_train ;;
  predict_each X_stream.

(** The value of [score] when the loop ends; [score = np.array([])]
    before it. *)
Definition stream_score (X_train X_stream : list Q) : M LeftSTAMPi (list Q) :=
  scores <- stream X_train X_stream ;;
  ret (last scores []).

End Detector.

Arguments mp {St} l.
Arguments window_size {St} l.
Arguments n_init_train {St} l.
Arguments normalize {St} l.
Arguments p {St} l.
Arguments k {St} l.
Arguments set_mp {St} self o.
Arguments set_n_init_train {St} self n.
Arguments _check_params {St} X _.
Arguments _call_stumpi {St} stumpi stumpy_installed X _.
Arguments mp_update {St} update t _.
Arguments zero_left_P {St} _.
Arguments _fit {St} stumpi stumpy_installed X _.
Arguments _predict {St} update reduction X _.
Arguments _fit_predict {St} stumpi update stumpy_installed reduction X _.
Arguments predict_each {St} update reduction X_stream _.
Arguments stream {St} stumpi update stumpy_installed reduction X_train X_stream _.
Arguments stream_score {St} stumpi update stumpy_installed reduction X_train X_stream _.

(** ** What the detector computes, without the monad *)

Section Objects.

Context {St : Type}.
Variable stumpi : list Q -> Z -> bool -> bool -> Q -> Z -> stumpi_obj St.
Variable update : stumpi_obj St -> upd_arg -> stumpi_obj St.

(** The object that [_call_stumpi T] stores in [self.mp]. *)
Definition fresh_obj (self : LeftSTAMPi St) (T : list Q) : stumpi_obj St :=
  stumpi T (window_size self) false (normalize self) (p self) (k self).

(** The object after [self.mp._left_P[:stop] = 0]. *)
Definition zero_obj (stop : option Z) (o : stumpi_obj St) : stumpi_obj St :=
  Build_stumpi_obj (rest o) (slice_fill_to stop 0%Q (_left_P o)).

Definition update_all (o : stumpi_obj St) (xs : list Q) : stumpi_obj St :=
  fold_left (fun o' x => update o' (Scalar x)) xs o.

(** The object when [_fit_predict X] returns. *)
Definition batch_obj (self : LeftSTAMPi St) (X : list Q) : stumpi_obj St :=
  zero_obj (n_init_train self)
    (update_all (fresh_obj self (slice_to (n_init_train self) X))
                (slice_from (n_init_train self) X)).

(** The objects after each of the calls [predict([x])], [x] in [xs],
    starting from the object [o]. *)
Fixpoint stream_objs (stop : option Z) (o : stumpi_obj St) (xs : list Q)
    : list (stumpi_obj St) :=
  match xs with
  | [] => []
  | x :: xs' =>
      let o' := zero_obj stop (update o (Arr [x])) in
      o' :: stream_objs stop o' xs'
  end.

(** ** Assumptions on the engine *)

(** A series of [n] points has [n - m + 1] subsequences of length [m], and
    one more after each update. *)
Definition profile_lengths : Prop :=
  (forall T m eg nz pp kk,
      0 < m <= Z.of_nat (length T) ->
      Z.of_nat (length (_left_P (stumpi T m eg nz pp kk)))
      = Z.of_nat (length T) - m + 1)
  /\ (forall o x,
         length (_left_P (update o (Scalar x))) = S (length (_left_P o))).

(** [update] treats a one-element array as the scalar it holds. *)
Definition array_as_scalar : Prop :=
  forall o x, update o (Arr [x]) = update o (Scalar x).

(** Left-profile distances are non-negative. *)
Definition profile_nonneg : Prop :=
  (forall T m eg nz pp kk,
      Forall (Qle 0) (_left_P (stumpi T m eg nz pp kk)))
  /\ (forall o x,
         Forall (Qle 0) (_left_P o) ->
         Forall (Qle 0) (_left_P (update o (Scalar x)))).

(** [update] appends one distance to the left profile, and neither that
    distance nor the rest of the object depends on the profile stored so
    far. *)
Definition update_appends : Prop :=
  exists (next_rest : St -> Q -> St) (next_dist : St -> Q -> Q),
  forall o x,
    update o (Scalar x)
    = Build_stumpi_obj (next_rest (rest o) x)
                       (_left_P o ++ [next_dist (rest o) x]).

End Objects.

(** ** Assumptions on the reduction of [reverse_windowing] *)

Definition reduction_zero (reduction : list Q -> Q) : Prop :=
  forall l, l <> [] -> Forall (fun q => q == 0)%Q l -> (reduction l == 0)%Q.

Definition reduction_nonneg (reduction : list Q -> Q) : Prop :=
  forall l, l <> [] -> Forall (Qle 0) l -> (0 <= reduction l)%Q.

(** ** Inputs used in the examples *)

Definition X10 : list Q :=
  [77 # 100; 44 # 100; 86 # 100; 70 # 100; 9 # 100;
   98 # 100; 76 # 100; 79 # 100; 13 # 100; 45 # 100]%Q.

(** [LeftSTAMPi(window_size=3, n_init_train=3)], over the reference engine. *)
Definition batch_detector : LeftSTAMPi (list Q * nat) :=
  __init__ (list Q * nat) 3 (Some 3) true 2%Q 1.

(** [LeftSTAMPi(window_size=3)], over the reference engine: every other
    parameter at its default, [n_init_train] at [None]. *)
Definition stream_detector : LeftSTAMPi (list Q * nat) :=
  default_detector (list Q * nat).

(** [LeftSTAMPi(window_size=3, n_init_train=3, k=8)]. *)
Definition large_k_detector : LeftSTAMPi (list Q * nat) :=
  __init__ (list Q * nat) 3 (Some 3) true 2%Q 8.

(** [LeftSTAMPi(window_size=5, n_init_train=3)]. *)
Definition wide_window_detector : LeftSTAMPi (list Q * nat) :=
  __init__ (list Q * nat) 5 (Some 3) true 2%Q 1.

(** [LeftSTAMPi(window_size=3, n_init_train=4)]. *)
Definition batch4_detector : LeftSTAMPi (list Q * nat) :=
  __init__ (list Q * nat) 3 (Some 4) true 2%Q 1.

(** [LeftSTAMPi(window_size=3, n_init_train=8)]: as many warm-up entries as
    [X10] has windows of width 3. *)
Definition late_detector : LeftSTAMPi (list Q * nat) :=
  __init__ (list Q * nat) 3 (Some 8) true 2%Q 1.

(** [X_train, X_stream = X[:4], X[4:]] *)
Definition X10_train : list Q := slice_to (Some 4) X10.

Definition X10_stream : list Q := slice_from (Some 4) X10.

(** A series shorter than the smallest window. *)
Definition X2 : list Q := [1; 2]%Q.

(** The parameters given at construction, apart from [n_init_train], which
    [fit] overwrites. *)
Definition hyperparameters {St : Type} (self : LeftSTAMPi St)
    : Z * bool * Q * Z :=
  (window_size self, normalize self, p self, k self).

(** ** Proof steps shared by the lemmas on the methods *)

Ltac bool_to_Z :=
  repeat match goal with
  | H : (_ || _) = true |- _ => apply orb_true_iff in H; destruct H
  | H : (_ || _) = false |- _ => apply orb_false_iff in H; destruct H
  | H : (_ <? _) = true |- _ => apply Z.ltb_lt in H
  | H : (_ <? _) = false |- _ => apply Z.ltb_ge in H
  | H : (_ >? _) = true |- _ => rewrite Z.gtb_ltb in H; apply Z.ltb_lt in H
  | H : (_ >? _) = false |- _ => rewrite Z.gtb_ltb in H; apply Z.ltb_ge in H
  end.

Ltac unfold_M := unfold bind, get, put, raise, ret.

(** * Properties *)

(** ** Lists and slices *)

Lemma Forall_firstn_of {A : Type} (P : A -> Prop) (n : nat) (l : list A) :
  Forall P l -> Forall P (firstn n l).
Proof.
  intros H. rewrite <- (firstn_skipn n l) in H.
  apply Forall_app in H. tauto.
Qed.

Lemma Forall_skipn_of {A : Type} (P : A -> Prop) (n : nat) (l : list A) :
  Forall P l -> Forall P (skipn n l).
Proof.
  intros H. rewrite <- (firstn_skipn n l) in H.
  apply Forall_app in H. tauto.
Qed.

Lemma Forall_repeat_of {A : Type} (P : A -> Prop) (v : A) (n : nat) :
  P v -> Forall P (repeat v n).
Proof.
  intros Hv. induction n as [|n IH]; simpl; constructor; assumption.
Qed.

Lemma last_cons_default {A : Type} (l : list A) (a d1 d2 : A) :
  last (a :: l) d1 = last (a :: l) d2.
Proof.
  revert a. induction l as [|b l IH]; intros a; [reflexivity|].
  change (last (b :: l) d1 = last (b :: l) d2). apply IH.
Qed.

Lemma slice_index_le (i : Z) (len : nat) : (slice_index i len <= len)%nat.
Proof.
  unfold slice_index. destruct (i <? 0) eqn:E.
  - apply Z.ltb_lt in E. lia.
  - apply Nat.le_min_r.
Qed.

Lemma slice_bound_le (b : option Z) (len : nat) :
  (slice_bound b len len <= len)%nat.
Proof.
  destruct b as [i|]; simpl; [apply slice_index_le | lia].
Qed.

Lemma slice_index_nonneg (n : Z) (len : nat) :
  0 <= n -> slice_index n len = Nat.min (Z.to_nat n) len.
Proof.
  intros H. unfold slice_index.
  destruct (n <? 0) eqn:E; [apply Z.ltb_lt in E; lia | reflexivity].
Qed.

Lemma slice_to_length {A : Type} (n : Z) (X : list A) :
  0 <= n ->
  Z.of_nat (length (slice_to (Some n) X)) = Z.min n (Z.of_nat (length X)).
Proof.
  intros H. unfold slice_to. simpl. rewrite slice_index_nonneg by assumption.
  rewrite length_firstn. lia.
Qed.

Lemma slice_from_length {A : Type} (n : Z) (X : list A) :
  0 <= n ->
  Z.of_nat (length (slice_from (Some n) X))
  = Z.of_nat (length X) - Z.min n (Z.of_nat (length X)).
Proof.
  intros H. unfold slice_from. simpl. rewrite slice_index_nonneg by assumption.
  rewrite length_skipn. lia.
Qed.

Lemma slice_to_from {A : Type} (n : Z) (X : list A) :
  slice_to (Some n) X ++ slice_from (Some n) X = X.
Proof.
  unfold slice_to, slice_from; simpl. apply firstn_skipn.
Qed.

Lemma slice_fill_to_length {A : Type} (stop : option Z) (v : A) (X : list A) :
  length (slice_fill_to stop v X) = length X.
Proof.
  unfold slice_fill_to.
  pose proof (slice_bound_le stop (length X)) as H.
  rewrite length_app, repeat_length, length_skipn. lia.
Qed.

Lemma slice_fill_to_Forall {A : Type} (P : A -> Prop) (stop : option Z)
    (v : A) (X : list A) :
  P v -> Forall P X -> Forall P (slice_fill_to stop v X).
Proof.
  intros Hv HX. unfold slice_fill_to. apply Forall_app. split.
  - apply Forall_repeat_of. assumption.
  - apply Forall_skipn_of. assumption.
Qed.

(** After [X[:n] = v] with [0 <= n], the first [n] entries are [v]. *)
Lemma slice_fill_to_prefix {A : Type} (P : A -> Prop) (n : Z) (v : A)
    (X : list A) :
  0 <= n -> P v ->
  Forall P (firstn (Z.to_nat n) (slice_fill_to (Some n) v X)).
Proof.
  intros Hn Hv. unfold slice_fill_to. simpl.
  rewrite slice_index_nonneg by assumption.
  destruct (Nat.le_gt_cases (Z.to_nat n) (length X)) as [Hle|Hgt].
  - rewrite Nat.min_l by assumption.
    rewrite firstn_app, repeat_length, Nat.sub_diag. simpl.
    rewrite app_nil_r. apply Forall_firstn_of, Forall_repeat_of. assumption.
  - rewrite Nat.min_r by lia. rewrite skipn_all, app_nil_r.
    apply Forall_firstn_of, Forall_repeat_of. assumption.
Qed.

(** Zeroing a prefix twice, around the arrival of further entries, is zeroing
    it once at the end. *)
Lemma slice_fill_to_absorb {A : Type} (n : Z) (v : A) (X Y : list A) :
  0 <= n ->
  slice_fill_to (Some n) v (slice_fill_to (Some n) v X ++ Y)
  = slice_fill_to (Some n) v (X ++ Y).
Proof.
  intros Hn.
  unfold slice_fill_to at 1 3. simpl.
  rewrite !length_app, slice_fill_to_length.
  rewrite slice_index_nonneg by assumption.
  set (e := Nat.min (Z.to_nat n) (length X + length Y)).
  f_equal.
  rewrite !skipn_app, slice_fill_to_length.
  f_equal.
  unfold slice_fill_to. simpl.
  rewrite slice_index_nonneg by assumption.
  set (e0 := Nat.min (Z.to_nat n) (length X)).
  assert (He : (e0 <= e)%nat) by (unfold e, e0; lia).
  rewrite skipn_app, repeat_length.
  rewrite (skipn_all2 (repeat v e0)) by (rewrite repeat_length; assumption).
  simpl. rewrite skipn_skipn.
  replace (e - e0 + e0)%nat with e by lia.
  reflexivity.
Qed.

(** ** Reverse windowing *)

Lemma covering_Forall (P : Q -> Prop) (y : list Q) (m i : nat) :
  Forall P y -> Forall P (covering y m i).
Proof.
  intros H. unfold covering. apply Forall_skipn_of, Forall_firstn_of, H.
Qed.

Lemma covering_prefix (P : Q -> Prop) (y : list Q) (m i e : nat) :
  Forall P (firstn e y) -> (i < e)%nat -> Forall P (covering y m i).
Proof.
  intros H Hi. unfold covering. apply Forall_skipn_of.
  replace (S i) with (Nat.min (S i) e) by lia.
  rewrite <- firstn_firstn. apply Forall_firstn_of, H.
Qed.

Lemma covering_nonempty (y : list Q) (m i : nat) :
  (0 < m)%nat -> (0 < length y)%nat -> (i < length y + m - 1)%nat ->
  covering y m i <> [].
Proof.
  intros Hm Hy Hi E. apply (f_equal (@length Q)) in E.
  unfold covering in E. rewrite length_skipn, length_firstn in E.
  cbn [length] in E. lia.
Qed.

Lemma reverse_windowing_length (reduction : list Q -> Q) (y : list Q) (w : Z) :
  length (reverse_windowing reduction y w)
  = (length y + Z.to_nat w - 1)%nat.
Proof.
  unfold reverse_windowing. rewrite length_map, length_seq. reflexivity.
Qed.

Lemma reverse_windowing_nonneg (reduction : list Q -> Q) (y : list Q) (w : Z) :
  reduction_nonneg reduction -> 0 < w -> (0 < length y)%nat ->
  Forall (Qle 0) y ->
  Forall (Qle 0) (reverse_windowing reduction y w).
Proof.
  intros Hr Hw Hlen Hy. unfold reverse_windowing.
  apply Forall_map, Forall_forall. intros i Hi. apply in_seq in Hi.
  apply Hr.
  - apply covering_nonempty; lia.
  - apply covering_Forall, Hy.
Qed.

Lemma In_firstn_seq (i e s N : nat) :
  In i (firstn e (seq s N)) -> (i < s + e)%nat /\ (i < s + N)%nat.
Proof.
  revert s N. induction e as [|e IH]; intros s N Hin.
  - simpl in Hin. contradiction.
  - destruct N as [|N]; simpl in Hin; [contradiction|].
    destruct Hin as [->|Hin]; [lia|].
    apply IH in Hin. lia.
Qed.

Lemma reverse_windowing_zero_prefix (reduction : list Q -> Q) (y : list Q)
    (w : Z) (e : nat) :
  reduction_zero reduction -> 0 < w -> (0 < length y)%nat ->
  Forall (fun q => q == 0)%Q (firstn e y) ->
  Forall (fun q => q == 0)%Q (firstn e (reverse_windowing reduction y w)).
Proof.
  intros Hr Hw Hlen Hy. unfold reverse_windowing.
  rewrite firstn_map. apply Forall_map, Forall_forall. intros i Hi.
  apply In_firstn_seq in Hi. destruct Hi as [Hie HiN].
  apply Hr.
  - apply covering_nonempty; lia.
  - apply covering_prefix with (e := e); [assumption | lia].
Qed.

(** ** The methods, call by call *)

Section Methods.

Context {St : Type}.
Variable stumpi : list Q -> Z -> bool -> bool -> Q -> Z -> stumpi_obj St.
Variable update : stumpi_obj St -> upd_arg -> stumpi_obj St.
Variable stumpy_installed : bool.
Variable reduction : list Q -> Q.

Implicit Types (d : LeftSTAMPi St) (X : list Q) (o : stumpi_obj St).

(** Validation reads the detector and never writes it. *)
Lemma check_params_state X d : snd (_check_params X d) = d.
Proof.
  unfold _check_params. unfold_M.
  destruct (_ || _); [reflexivity|].
  destruct (n_init_train d) as [n|]; [|reflexivity].
  destruct (window_size d >? n); [reflexivity|].
  destruct (_ || _); reflexivity.
Qed.

Lemma check_params_window X d :
  window_size d < 3 \/ window_size d > Z.of_nat (length X) ->
  _check_params X d = (Raise (ValueError msg_window), d).
Proof.
  intros H. unfold _check_params. unfold_M.
  destruct (_ || _) eqn:E; [reflexivity|]. bool_to_Z. lia.
Qed.

Lemma check_params_None X d :
  3 <= window_size d <= Z.of_nat (length X) ->
  n_init_train d = None ->
  _check_params X d = (Raise (TypeError msg_gt_None), d).
Proof.
  intros H HN. unfold _check_params. unfold_M.
  destruct (_ || _) eqn:E; [bool_to_Z; lia|].
  rewrite HN. reflexivity.
Qed.

Lemma check_params_n_init_train X d n :
  3 <= window_size d <= Z.of_nat (length X) ->
  n_init_train d = Some n ->
  window_size d > n ->
  _check_params X d = (Raise (ValueError (msg_n_init_train n)), d).
Proof.
  intros H HN Hn. unfold _check_params. unfold_M.
  destruct (_ || _) eqn:E; [bool_to_Z; lia|].
  rewrite HN.
  destruct (window_size d >? n) eqn:E1; [reflexivity|]. bool_to_Z. lia.
Qed.

Lemma check_params_k X d n :
  3 <= window_size d <= Z.of_nat (length X) ->
  n_init_train d = Some n ->
  window_size d <= n ->
  k d < 1 \/ k d > Z.of_nat (length X) - window_size d ->
  _check_params X d = (Raise (ValueError msg_k), d).
Proof.
  intros H HN Hn Hk. unfold _check_params. unfold_M.
  destruct (_ || _) eqn:E; [bool_to_Z; lia|].
  rewrite HN.
  destruct (window_size d >? n) eqn:E1; [bool_to_Z; lia|].
  destruct ((k d <? 1) || _) eqn:E2; [reflexivity|]. bool_to_Z. lia.
Qed.

Lemma check_params_ok X d n :
  3 <= window_size d <= Z.of_nat (length X) ->
  n_init_train d = Some n ->
  window_size d <= n ->
  1 <= k d <= Z.of_nat (length X) - window_size d ->
  _check_params X d = (Ok tt, d).
Proof.
  intros H HN Hn Hk. unfold _check_params. unfold_M.
  destruct (_ || _) eqn:E; [bool_to_Z; lia|].
  rewrite HN.
  destruct (window_size d >? n) eqn:E1; [bool_to_Z; lia|].
  destruct ((k d <? 1) || _) eqn:E2; [bool_to_Z; lia|]. reflexivity.
Qed.

(** What validation can raise, and when. *)
Lemma check_params_cases X d :
  (_check_params X d = (Raise (ValueError msg_window), d)
   /\ (window_size d < 3 \/ window_size d > Z.of_nat (length X)))
  \/ (_check_params X d = (Raise (TypeError msg_gt_None), d)
      /\ 3 <= window_size d <= Z.of_nat (length X)
      /\ n_init_train d = None)
  \/ (exists n,
         _check_params X d = (Raise (ValueError (msg_n_init_train n)), d)
         /\ 3 <= window_size d <= Z.of_nat (length X)
         /\ n_init_train d = Some n /\ window_size d > n)
  \/ (exists n,
         _check_params X d = (Raise (ValueError msg_k), d)
         /\ 3 <= window_size d <= Z.of_nat (length X)
         /\ n_init_train d = Some n /\ window_size d <= n
         /\ (k d < 1 \/ k d > Z.of_nat (length X) - window_size d))
  \/ (exists n,
         _check_params X d = (Ok tt, d)
         /\ 3 <= window_size d <= Z.of_nat (length X)
         /\ n_init_train d = Some n /\ window_size d <= n
         /\ 1 <= k d <= Z.of_nat (length X) - window_size d).
Proof.
  destruct (Z_lt_dec (window_size d) 3) as [H1|H1].
  { left. split; [apply check_params_window|]; lia. }
  destruct (Z_gt_dec (window_size d) (Z.of_nat (length X))) as [H2|H2].
  { left. split; [apply check_params_window|]; lia. }
  right. destruct (n_init_train d) as [n|] eqn:HN.
  2:{ left. split; [apply check_params_None; [lia|assumption]|].
      split; [lia|reflexivity]. }
  right. destruct (Z_gt_dec (window_size d) n) as [H3|H3].
  { left. exists n. split; [apply check_params_n_init_train; [lia|..]|];
      auto; repeat split; auto; lia. }
  right.
  destruct (Z_lt_dec (k d) 1) as [H4|H4].
  { left. exists n. split; [apply check_params_k with (n := n)|];
      auto; repeat split; auto; lia. }
  destruct (Z_gt_dec (k d) (Z.of_nat (length X) - window_size d)) as [H5|H5].
  { left. exists n. split; [apply check_params_k with (n := n)|];
      auto; repeat split; auto; lia. }
  right. exists n. split; [apply check_params_ok with (n := n)|];
    auto; repeat split; auto; lia.
Qed.

Lemma for_each_update d o xs :
  mp d = Some o ->
  for_each xs (fun x => mp_update update (Scalar x)) d
  = (Ok tt, set_mp d (Some (update_all update o xs))).
Proof.
  revert d o. induction xs as [|x xs IH]; intros d o Hmp.
  - simpl. unfold ret. destruct d; simpl in *; subst. reflexivity.
  - simpl. unfold bind at 1. unfold mp_update at 1. unfold_M.
    rewrite Hmp. rewrite (IH _ (update o (Scalar x))) by reflexivity.
    reflexivity.
Qed.

Lemma zero_left_P_ok d o :
  mp d = Some o ->
  zero_left_P d
  = (Ok (_left_P (zero_obj (n_init_train d) o)),
     set_mp d (Some (zero_obj (n_init_train d) o))).
Proof.
  intros Hmp. unfold zero_left_P. unfold_M. rewrite Hmp. reflexivity.
Qed.

Lemma predict_ok d o X :
  mp d = Some o ->
  let o' := zero_obj (n_init_train d) (update o (Arr X)) in
  _predict update reduction X d
  = (Ok (reverse_windowing reduction (_left_P o') (window_size d)),
     set_mp d (Some o')).
Proof.
  intros Hmp o'. unfold _predict, mp_update, zero_left_P. unfold_M.
  rewrite Hmp. reflexivity.
Qed.

Lemma predict_each_ok d o xs :
  mp d = Some o ->
  let objs := stream_objs update (n_init_train d) o xs in
  predict_each update reduction xs d
  = (Ok (map (fun o' => reverse_windowing reduction (_left_P o')
                          (window_size d)) objs),
     set_mp d (Some (last objs o))).
Proof.
  revert d o. induction xs as [|x xs IH]; intros d o Hmp.
  - simpl. unfold ret. destruct d; simpl in *; subst. reflexivity.
  - cbn [predict_each stream_objs]. unfold bind at 1.
    rewrite (predict_ok d o [x] Hmp).
    unfold bind at 1.
    set (o1 := zero_obj (n_init_train d) (update o (Arr [x]))).
    rewrite (IH (set_mp d (Some o1)) o1 eq_refl).
    unfold ret, set_mp. cbn [map n_init_train window_size mp normalize p k].
    destruct (stream_objs update (n_init_train d) o1 xs) as [|o2 os];
      [reflexivity|].
    rewrite (last_cons_default os o2 o1 o). reflexivity.
Qed.

Lemma fit_predict_ok d X n :
  stumpy_installed = true ->
  3 <= window_size d <= Z.of_nat (length X) ->
  n_init_train d = Some n ->
  window_size d <= n ->
  1 <= k d <= Z.of_nat (length X) - window_size d ->
  _fit_predict stumpi update stumpy_installed reduction X d
  = (Ok (reverse_windowing reduction
           (_left_P (batch_obj stumpi update d X)) (window_size d)),
     set_mp d (Some (batch_obj stumpi update d X))).
Proof.
  intros Hinst Hw Hn Hwn Hk. unfold _fit_predict.
  unfold bind at 1. rewrite (check_params_ok X d n) by assumption.
  unfold bind at 1. unfold get at 1.
  unfold bind at 1. unfold _call_stumpi. rewrite Hinst.
  unfold bind at 1. unfold get at 1. unfold put at 1.
  unfold bind at 1.
  set (o0 := stumpi _ _ _ _ _ _).
  rewrite (for_each_update (set_mp d (Some o0)) o0 _ eq_refl).
  unfold bind at 1.
  rewrite (zero_left_P_ok (set_mp (set_mp d (Some o0)) _) _ eq_refl).
  reflexivity.
Qed.

Lemma fit_ok d X :
  stumpy_installed = true ->
  3 <= window_size d <= Z.of_nat (length X) ->
  1 <= k d <= Z.of_nat (length X) - window_size d ->
  _fit stumpi stumpy_installed X d
  = (Ok tt,
     set_mp (set_n_init_train d (Some (Z.of_nat (length X))))
            (Some (fresh_obj stumpi d X))).
Proof.
  intros Hinst Hw Hk. unfold _fit.
  unfold bind at 1. unfold get at 1.
  unfold bind at 1. unfold put at 1.
  unfold bind at 1.
  rewrite (check_params_ok X _ (Z.of_nat (length X)));
    [| assumption | reflexivity | simpl; lia | assumption].
  unfold _call_stumpi. rewrite Hinst. reflexivity.
Qed.

(** [fit] stores the length of its input before it validates. *)
Lemma fit_n_init_train d X :
  n_init_train (snd (_fit stumpi stumpy_installed X d))
  = Some (Z.of_nat (length X)).
Proof.
  unfold _fit. unfold bind at 1. unfold get at 1.
  unfold bind at 1. unfold put at 1. unfold bind at 1.
  set (d1 := set_n_init_train d (Some (Z.of_nat (length X)))).
  pose proof (check_params_state X d1) as Hs.
  destruct (_check_params X d1) as [[[]|e] d2]; simpl in Hs; subst d2.
  - unfold _call_stumpi. destruct stumpy_installed; reflexivity.
  - reflexivity.
Qed.

End Methods.

(** ** The object behind the scores *)

Section ObjectProperties.

Context {St : Type}.
Variable stumpi : list Q -> Z -> bool -> bool -> Q -> Z -> stumpi_obj St.
Variable update : stumpi_obj St -> upd_arg -> stumpi_obj St.

Implicit Types (d : LeftSTAMPi St) (X : list Q) (o : stumpi_obj St).

Lemma zero_obj_length stop o :
  length (_left_P (zero_obj stop o)) = length (_left_P o).
Proof. apply slice_fill_to_length. Qed.

Lemma zero_obj_nonneg stop o :
  Forall (Qle 0) (_left_P o) -> Forall (Qle 0) (_left_P (zero_obj stop o)).
Proof.
  intros H. apply slice_fill_to_Forall; [apply Qle_refl | exact H].
Qed.

Lemma zero_obj_prefix (n : Z) o :
  0 <= n ->
  Forall (fun q => q == 0)%Q
    (firstn (Z.to_nat n) (_left_P (zero_obj (Some n) o))).
Proof.
  intros Hn. apply slice_fill_to_prefix; [exact Hn | reflexivity].
Qed.

Lemma update_all_length o xs :
  profile_lengths stumpi update ->
  length (_left_P (update_all update o xs))
  = (length (_left_P o) + length xs)%nat.
Proof.
  intros [_ Hupd]. revert o.
  induction xs as [|x xs IH]; intros o; simpl; [lia|].
  change (fold_left _ xs ?a) with (update_all update a xs).
  rewrite IH, Hupd. lia.
Qed.

Lemma update_all_nonneg o xs :
  profile_nonneg stumpi update ->
  Forall (Qle 0) (_left_P o) ->
  Forall (Qle 0) (_left_P (update_all update o xs)).
Proof.
  intros [_ Hupd]. revert o.
  induction xs as [|x xs IH]; intros o Ho; simpl; [exact Ho|].
  change (fold_left _ xs ?a) with (update_all update a xs).
  apply IH, Hupd, Ho.
Qed.

Lemma fresh_obj_length d X :
  profile_lengths stumpi update ->
  0 < window_size d <= Z.of_nat (length X) ->
  Z.of_nat (length (_left_P (fresh_obj stumpi d X)))
  = Z.of_nat (length X) - window_size d + 1.
Proof.
  intros [Hnew _] Hw. unfold fresh_obj. apply Hnew, Hw.
Qed.

(** After [_fit_predict X] the profile has one entry per subsequence of
    [X]. *)
Lemma batch_obj_length d X n :
  profile_lengths stumpi update ->
  3 <= window_size d <= Z.of_nat (length X) ->
  n_init_train d = Some n ->
  window_size d <= n ->
  Z.of_nat (length (_left_P (batch_obj stumpi update d X)))
  = Z.of_nat (length X) - window_size d + 1.
Proof.
  intros Hlen Hw Hn Hwn. unfold batch_obj.
  rewrite zero_obj_length, update_all_length by exact Hlen.
  rewrite Nat2Z.inj_add, Hn.
  rewrite fresh_obj_length;
    [| exact Hlen | rewrite slice_to_length by lia; lia].
  rewrite slice_to_length, slice_from_length by lia. lia.
Qed.

Lemma batch_obj_nonneg d X :
  profile_nonneg stumpi update ->
  Forall (Qle 0) (_left_P (batch_obj stumpi update d X)).
Proof.
  intros Hnn. unfold batch_obj.
  apply zero_obj_nonneg, update_all_nonneg; [exact Hnn|].
  destruct Hnn as [Hnew _]. apply Hnew.
Qed.

Lemma stream_objs_count stop o xs :
  length (stream_objs update stop o xs) = length xs.
Proof.
  revert o. induction xs as [|x xs IH]; intros o; simpl; [reflexivity|].
  rewrite IH. reflexivity.
Qed.

(** The [j]-th [predict] call leaves a profile that is [j + 1] entries
    longer than the one it started from. *)
Lemma stream_objs_length stop o xs j o' :
  profile_lengths stumpi update ->
  array_as_scalar update ->
  nth_error (stream_objs update stop o xs) j = Some o' ->
  length (_left_P o') = (length (_left_P o) + j + 1)%nat.
Proof.
  intros [_ Hupd] Harr. revert o j.
  induction xs as [|x xs IH]; intros o j Hj.
  - destruct j; discriminate.
  - destruct j as [|j]; simpl in Hj.
    + injection Hj as <-. rewrite zero_obj_length, Harr, Hupd. lia.
    + apply IH in Hj. rewrite Hj, zero_obj_length, Harr, Hupd. lia.
Qed.

(** A property of the object that every [predict([x])] call preserves
    holds after each call. *)
Lemma stream_objs_invariant (I : stumpi_obj St -> Prop) stop o xs :
  (forall o' x, I o' -> I (zero_obj stop (update o' (Arr [x])))) ->
  I o ->
  Forall I (stream_objs update stop o xs).
Proof.
  intros Hstep. revert o.
  induction xs as [|x xs IH]; intros o Ho; simpl; constructor.
  - apply Hstep, Ho.
  - apply IH, Hstep, Ho.
Qed.

Lemma stream_objs_zeroed (n : Z) o xs :
  0 <= n ->
  Forall (fun o' => Forall (fun q => q == 0)%Q
                      (firstn (Z.to_nat n) (_left_P o')))
         (stream_objs update (Some n) o xs).
Proof.
  intros Hn. revert o.
  induction xs as [|x xs IH]; intros o; simpl; constructor.
  - apply zero_obj_prefix, Hn.
  - apply IH.
Qed.

Lemma stream_objs_nonneg stop o xs :
  array_as_scalar update ->
  profile_nonneg stumpi update ->
  Forall (Qle 0) (_left_P o) ->
  Forall (fun o' => Forall (Qle 0) (_left_P o'))
         (stream_objs update stop o xs).
Proof.
  intros Harr [_ Hnn] Ho.
  apply stream_objs_invariant
    with (I := fun o' => Forall (Qle 0) (_left_P o')); [|exact Ho].
  intros o' x Ho'. apply zero_obj_nonneg. rewrite Harr. apply Hnn, Ho'.
Qed.

Lemma stream_objs_nonempty stop o xs :
  profile_lengths stumpi update ->
  array_as_scalar update ->
  Forall (fun o' => (0 < length (_left_P o'))%nat)
         (stream_objs update stop o xs).
Proof.
  intros [_ Hupd] Harr. revert o.
  induction xs as [|x xs IH]; intros o; simpl; constructor.
  - rewrite zero_obj_length, Harr, Hupd. lia.
  - apply IH.
Qed.

End ObjectProperties.

(** ** The mean and the reference engine meet the assumptions *)

Lemma Qsum_zero (l : list Q) :
  Forall (fun q => q == 0)%Q l -> (Qsum l == 0)%Q.
Proof.
  induction 1 as [|q l Hq _ IH]; simpl; [reflexivity|].
  rewrite Hq, IH. reflexivity.
Qed.

Lemma Qsum_nonneg (l : list Q) :
  Forall (Qle 0) l -> (0 <= Qsum l)%Q.
Proof.
  induction 1 as [|q l Hq _ IH]; simpl; [apply Qle_refl|].
  rewrite <- (Qplus_0_l 0). apply Qplus_le_compat; assumption.
Qed.

Lemma Qmean_zero : reduction_zero Qmean.
Proof.
  intros l _ Hl. unfold Qmean. rewrite Qred_correct.
  rewrite (Qsum_zero l Hl). unfold Qdiv. apply Qmult_0_l.
Qed.

Lemma Qmean_nonneg : reduction_nonneg Qmean.
Proof.
  intros l Hne Hl. unfold Qmean. rewrite Qred_correct.
  apply Qle_shift_div_l.
  - destruct l as [|q l]; [contradiction|].
    unfold Qlt. simpl. lia.
  - rewrite Qmult_0_l. apply Qsum_nonneg, Hl.
Qed.

Lemma latest_window_zero : reduction_zero latest_window.
Proof.
  intros l Hne Hl. unfold latest_window.
  destruct (exists_last Hne) as (l' & q & ->). rewrite last_last.
  apply Forall_app in Hl. destruct Hl as [_ Hq]. inversion Hq. assumption.
Qed.

Lemma latest_window_nonneg : reduction_nonneg latest_window.
Proof.
  intros l Hne Hl. unfold latest_window.
  destruct (exists_last Hne) as (l' & q & ->). rewrite last_last.
  apply Forall_app in Hl. destruct Hl as [_ Hq]. inversion Hq. assumption.
Qed.

Lemma last_firstn_S {A : Type} (l : list A) (i : nat) (a : A) :
  (i < length l)%nat -> last (firstn (S i) l) a = nth i l a.
Proof.
  revert i. induction l as [|x l IH]; intros i Hi; simpl in Hi; [lia|].
  destruct i as [|i]; [reflexivity|].
  change (firstn (S (S i)) (x :: l)) with (x :: firstn (S i) l).
  destruct l as [|y l]; [simpl in Hi; lia|].
  change (last (firstn (S i) (y :: l)) a = nth i (y :: l) a).
  apply IH. simpl in *. lia.
Qed.

Lemma last_skipn {A : Type} (l : list A) (j : nat) (a : A) :
  (j < length l)%nat -> last (skipn j l) a = last l a.
Proof.
  revert l. induction j as [|j IH]; intros l Hj; [reflexivity|].
  destruct l as [|x l]; simpl in Hj; [lia|].
  destruct l as [|y l]; [simpl in Hj; lia|].
  change (last (skipn j (y :: l)) a = last (y :: l) a).
  apply IH. simpl in *. lia.
Qed.

(** With [latest_window], each point that starts a window gets the profile
    value of that window. *)
Lemma reverse_windowing_latest_window (y : list Q) (w : Z) (i : nat) :
  0 < w -> (i < length y)%nat ->
  nth i (reverse_windowing latest_window y w) 0%Q = nth i y 0%Q.
Proof.
  intros Hw Hi. unfold reverse_windowing.
  rewrite (nth_indep _ 0%Q (latest_window (covering y (Z.to_nat w) 0)))
    by (rewrite length_map, length_seq; lia).
  rewrite (map_nth (fun i => latest_window (covering y (Z.to_nat w) i))).
  rewrite seq_nth by lia. simpl.
  unfold latest_window, covering.
  rewrite last_skipn by (rewrite length_firstn; lia).
  apply last_firstn_S. exact Hi.
Qed.

Lemma l1_dist_nonneg (a b : list Q) : (0 <= l1_dist a b)%Q.
Proof.
  unfold l1_dist. apply Qsum_nonneg, Forall_map, Forall_forall.
  intros xy _. apply Qabs_nonneg.
Qed.

Lemma fold_right_Qmin_nonneg (d : Q) (ds : list Q) :
  (0 <= d)%Q -> Forall (Qle 0) ds -> (0 <= fold_right Qmin d ds)%Q.
Proof.
  intros Hd. induction 1 as [|q l Hq _ IH]; simpl; [exact Hd|].
  apply Q.min_glb; assumption.
Qed.

Lemma left_dist_nonneg (T : list Q) (m i : nat) : (0 <= left_dist T m i)%Q.
Proof.
  unfold left_dist.
  assert (H : Forall (Qle 0)
                (map (fun j => l1_dist (subseq T m j) (subseq T m i))
                     (seq 0 i))).
  { apply Forall_map, Forall_forall. intros j _. apply l1_dist_nonneg. }
  destruct (map _ (seq 0 i)) as [|q l]; [apply Qle_refl|].
  inversion H; subst. apply fold_right_Qmin_nonneg; assumption.
Qed.

Lemma ref_profile_lengths : profile_lengths ref_stumpi ref_update.
Proof.
  split.
  - intros T m eg nz pp kk Hm. simpl. unfold ref_left_profile.
    rewrite length_map, length_seq. lia.
  - intros o x. simpl. rewrite length_app. simpl. lia.
Qed.

Lemma ref_array_as_scalar : array_as_scalar ref_update.
Proof. intros o x. reflexivity. Qed.

Lemma ref_profile_nonneg : profile_nonneg ref_stumpi ref_update.
Proof.
  split.
  - intros T m eg nz pp kk. simpl. unfold ref_left_profile.
    apply Forall_map, Forall_forall. intros i _. apply left_dist_nonneg.
  - intros o x Ho. simpl. apply Forall_app. split; [exact Ho|].
    constructor; [apply left_dist_nonneg | constructor].
Qed.

Lemma ref_update_appends : update_appends ref_update.
Proof.
  exists (fun r x => ((fst r ++ [x])%list, snd r)).
  exists (fun r x => left_dist (fst r ++ [x]) (snd r)
                       (length (fst r ++ [x]) - snd r)).
  intros o x. reflexivity.
Qed.

(** ** Validation inside [_fit] and [_fit_predict] *)

Section Validation.

Context {St : Type}.
Variable stumpi : list Q -> Z -> bool -> bool -> Q -> Z -> stumpi_obj St.
Variable update : stumpi_obj St -> upd_arg -> stumpi_obj St.
Variable stumpy_installed : bool.
Variable reduction : list Q -> Q.

Implicit Types (d : LeftSTAMPi St) (X : list Q) (o : stumpi_obj St).

Lemma fit_predict_check_raise X d e :
  _check_params X d = (Raise e, d) ->
  _fit_predict stumpi update stumpy_installed reduction X d = (Raise e, d).
Proof.
  intros H. unfold _fit_predict. unfold bind at 1. rewrite H. reflexivity.
Qed.

Lemma fit_predict_check_ok X d :
  _check_params X d = (Ok tt, d) ->
  _fit_predict stumpi update stumpy_installed reduction X d
  = if stumpy_installed
    then (Ok (reverse_windowing reduction
                (_left_P (batch_obj stumpi update d X)) (window_size d)),
          set_mp d (Some (batch_obj stumpi update d X)))
    else (Raise (ModuleNotFoundError "stumpy"), d).
Proof.
  intros H. unfold _fit_predict. unfold bind at 1. rewrite H.
  unfold bind at 1. unfold get at 1.
  unfold bind at 1. unfold _call_stumpi.
  destruct stumpy_installed; [|reflexivity].
  unfold bind at 1. unfold get at 1. unfold put at 1.
  unfold bind at 1.
  set (o0 := stumpi _ _ _ _ _ _).
  rewrite (for_each_update update (set_mp d (Some o0)) o0 _ eq_refl).
  unfold bind at 1.
  rewrite (zero_left_P_ok (set_mp (set_mp d (Some o0)) _) _ eq_refl).
  reflexivity.
Qed.

Lemma fit_check_raise X d e :
  let d1 := set_n_init_train d (Some (Z.of_nat (length X))) in
  _check_params X d1 = (Raise e, d1) ->
  _fit stumpi stumpy_installed X d = (Raise e, d1).
Proof.
  intros d1 H. unfold _fit. unfold bind at 1. unfold get at 1.
  unfold bind at 1. unfold put at 1. unfold bind at 1.
  fold d1. rewrite H. reflexivity.
Qed.

Lemma fit_check_ok X d :
  let d1 := set_n_init_train d (Some (Z.of_nat (length X))) in
  _check_params X d1 = (Ok tt, d1) ->
  _fit stumpi stumpy_installed X d
  = if stumpy_installed
    then (Ok tt, set_mp d1 (Some (fresh_obj stumpi d X)))
    else (Raise (ModuleNotFoundError "stumpy"), d1).
Proof.
  intros d1 H. unfold _fit. unfold bind at 1. unfold get at 1.
  unfold bind at 1. unfold put at 1. unfold bind at 1.
  fold d1. rewrite H. unfold _call_stumpi.
  destruct stumpy_installed; reflexivity.
Qed.

(** [_fit_predict] raises a [ValueError] exactly when validation does. *)
Lemma fit_predict_ValueError X d :
  is_ValueError
    (fst (_fit_predict stumpi update stumpy_installed reduction X d))
  = is_ValueError (fst (_check_params X d)).
Proof.
  pose proof (check_params_state X d) as Hs.
  destruct (_check_params X d) as [[[]|e] d'] eqn:E; simpl in Hs; subst d'.
  - rewrite (fit_predict_check_ok X d E).
    destruct stumpy_installed; reflexivity.
  - rewrite (fit_predict_check_raise X d e E). reflexivity.
Qed.

Lemma fit_ValueError X d :
  is_ValueError (fst (_fit stumpi stumpy_installed X d))
  = is_ValueError
      (fst (_check_params X
              (set_n_init_train d (Some (Z.of_nat (length X)))))).
Proof.
  set (d1 := set_n_init_train d (Some (Z.of_nat (length X)))).
  pose proof (check_params_state X d1) as Hs.
  destruct (_check_params X d1) as [[[]|e] d'] eqn:E; simpl in Hs; subst d'.
  - rewrite (fit_check_ok X d E).
    destruct stumpy_installed; reflexivity.
  - rewrite (fit_check_raise X d e E). reflexivity.
Qed.

(** With a window size in range and [window_size <= n_init_train], the
    only [ValueError] left is the one on [k]. *)
Lemma check_params_ValueError_k X d n :
  3 <= window_size d <= Z.of_nat (length X) ->
  n_init_train d = Some n ->
  window_size d <= n ->
  is_ValueError (fst (_check_params X d)) = true
  <-> (k d < 1 \/ k d > Z.of_nat (length X) - window_size d).
Proof.
  intros Hw Hn Hwn. split.
  - intros H.
    destruct (Z_lt_dec (k d) 1) as [|H1]; [left; assumption|].
    destruct (Z_gt_dec (k d) (Z.of_nat (length X) - window_size d))
      as [|H2]; [right; assumption|].
    rewrite (check_params_ok X d n) in H by (assumption || lia).
    discriminate.
  - intros Hk. rewrite (check_params_k X d n) by assumption. reflexivity.
Qed.

(** An exception leaves the detector as [_fit_predict] found it. *)
Lemma fit_predict_raise_state X d e :
  fst (_fit_predict stumpi update stumpy_installed reduction X d) = Raise e ->
  snd (_fit_predict stumpi update stumpy_installed reduction X d) = d.
Proof.
  pose proof (check_params_state X d) as Hs.
  destruct (_check_params X d) as [[[]|e'] d'] eqn:E; simpl in Hs; subst d'.
  - rewrite (fit_predict_check_ok X d E).
    destruct stumpy_installed; [discriminate | reflexivity].
  - rewrite (fit_predict_check_raise X d e' E). reflexivity.
Qed.

(** An exception leaves the detector as [_fit] found it, except for
    [n_init_train]. *)
Lemma fit_raise_state X d e :
  fst (_fit stumpi stumpy_installed X d) = Raise e ->
  snd (_fit stumpi stumpy_installed X d)
  = set_n_init_train d (Some (Z.of_nat (length X))).
Proof.
  set (d1 := set_n_init_train d (Some (Z.of_nat (length X)))).
  pose proof (check_params_state X d1) as Hs.
  destruct (_check_params X d1) as [[[]|e'] d'] eqn:E; simpl in Hs; subst d'.
  - rewrite (fit_check_ok X d E).
    destruct stumpy_installed; [discriminate | reflexivity].
  - rewrite (fit_check_raise X d e' E). reflexivity.
Qed.

Lemma stream_ok d X_train X_stream :
  stumpy_installed = true ->
  3 <= window_size d <= Z.of_nat (length X_train) ->
  1 <= k d <= Z.of_nat (length X_train) - window_size d ->
  let stop := Some (Z.of_nat (length X_train)) in
  let objs := stream_objs update stop (fresh_obj stumpi d X_train) X_stream in
  stream stumpi update stumpy_installed reduction X_train X_stream d
  = (Ok (map (fun o' => reverse_windowing reduction (_left_P o')
                          (window_size d)) objs),
     set_mp (set_n_init_train d stop)
            (Some (last objs (fresh_obj stumpi d X_train)))).
Proof.
  intros Hinst Hw Hk stop objs. unfold stream. unfold bind at 1.
  rewrite (fit_ok stumpi stumpy_installed d X_train Hinst Hw Hk).
  rewrite (predict_each_ok update reduction _ (fresh_obj stumpi d X_train))
    by reflexivity.
  reflexivity.
Qed.

End Validation.

(** * The claims *)

Section Claims.

Context {St : Type}.
Variable stumpi : list Q -> Z -> bool -> bool -> Q -> Z -> stumpi_obj St.
Variable update : stumpi_obj St -> upd_arg -> stumpi_obj St.
Variable stumpy_installed : bool.
Variable reduction : list Q -> Q.

Implicit Types (d ds : LeftSTAMPi St) (X : list Q) (o : stumpi_obj St).

Local Abbreviation fit := (_fit stumpi stumpy_installed).
Local Abbreviation fit_predict :=
  (_fit_predict stumpi update stumpy_installed reduction).

Lemma fit_ValueError_iff X d :
  is_ValueError (fst (fit X d)) = true
  <-> (window_size d < 3 \/ window_size d > Z.of_nat (length X)
       \/ k d < 1 \/ k d > Z.of_nat (length X) - window_size d).
Proof.
  rewrite fit_ValueError.
  set (d1 := set_n_init_train d (Some (Z.of_nat (length X)))).
  destruct (Z_lt_dec (window_size d) 3) as [H1|H1].
  { rewrite (check_params_window X d1) by (left; exact H1).
    simpl. split; [intros _; left; exact H1 | reflexivity]. }
  destruct (Z_gt_dec (window_size d) (Z.of_nat (length X))) as [H2|H2].
  { rewrite (check_params_window X d1) by (right; exact H2).
    simpl. split; [intros _; right; left; exact H2 | reflexivity]. }
  rewrite (check_params_ValueError_k X d1 (Z.of_nat (length X)));
    [| simpl; lia | reflexivity | simpl; lia].
  simpl. lia.
Qed.

(** C4: a window size below 3 or above the length of the series passed
    makes both [fit] and [fit_predict] raise the [ValueError] on the
    window size. *)
Theorem invalid_window_size_raises X d :
  window_size d < 3 \/ window_size d > Z.of_nat (length X) ->
  fst (fit X d) = Raise (ValueError msg_window)
  /\ fst (fit_predict X d) = Raise (ValueError msg_window).
Proof.
  intros H. split.
  - rewrite (fit_check_raise stumpi stumpy_installed X d
               (ValueError msg_window)); [reflexivity|].
    apply check_params_window. exact H.
  - rewrite (fit_predict_check_raise stumpi update stumpy_installed
               reduction X d (ValueError msg_window)); [reflexivity|].
    apply check_params_window. exact H.
Qed.

(** C5: with a window size in range and [window_size <= n_init_train],
    [fit] and [fit_predict] raise a [ValueError] if and only if [k < 1] or
    [k > len(X) - window_size], for the series [X] passed to the call. *)
Theorem invalid_k_raises_iff X d n :
  3 <= window_size d <= Z.of_nat (length X) ->
  n_init_train d = Some n ->
  window_size d <= n ->
  (is_ValueError (fst (fit X d)) = true
   <-> (k d < 1 \/ k d > Z.of_nat (length X) - window_size d))
  /\ (is_ValueError (fst (fit_predict X d)) = true
      <-> (k d < 1 \/ k d > Z.of_nat (length X) - window_size d)).
Proof.
  intros Hw Hn Hwn. split.
  - rewrite fit_ValueError_iff. lia.
  - rewrite fit_predict_ValueError.
    apply check_params_ValueError_k with (n := n); assumption.
Qed.

(** C6: with a window size in range but larger than [n_init_train],
    [fit_predict] raises the [ValueError] on [n_init_train] and leaves the
    detector, and so its matrix-profile object, untouched. *)
Theorem window_above_n_init_train_raises X d n :
  3 <= window_size d <= Z.of_nat (length X) ->
  n_init_train d = Some n ->
  window_size d > n ->
  fit_predict X d = (Raise (ValueError (msg_n_init_train n)), d).
Proof.
  intros Hw Hn Hwn. apply fit_predict_check_raise.
  apply check_params_n_init_train; assumption.
Qed.

(** C10: with [n_init_train] left at [None] and a window size in range,
    [fit_predict] raises the [TypeError] of the comparison
    [window_size > None], which is not a [ValueError]. *)
Theorem default_n_init_train_TypeError X d :
  n_init_train d = None ->
  3 <= window_size d <= Z.of_nat (length X) ->
  fit_predict X d = (Raise (TypeError msg_gt_None), d)
  /\ is_ValueError (fst (fit_predict X d)) = false.
Proof.
  intros Hn Hw.
  assert (H : fit_predict X d = (Raise (TypeError msg_gt_None), d)).
  { apply fit_predict_check_raise. apply check_params_None; assumption. }
  rewrite H. split; reflexivity.
Qed.

(** C8 (amended): an exception raised by [fit_predict] leaves the detector
    exactly as it was; an exception raised by [fit] leaves it as it was
    except for [n_init_train], which holds the length of the series
    passed. *)
Theorem exception_leaves_state X d e :
  (fst (fit_predict X d) = Raise e -> snd (fit_predict X d) = d)
  /\ (fst (fit X d) = Raise e ->
      snd (fit X d) = set_n_init_train d (Some (Z.of_nat (length X)))
      /\ mp (snd (fit X d)) = mp d).
Proof.
  split.
  - apply fit_predict_raise_state.
  - intros H. rewrite (fit_raise_state stumpi stumpy_installed X d e H).
    split; reflexivity.
Qed.

End Claims.

Section ScoreClaims.

Context {St : Type}.
Variable stumpi : list Q -> Z -> bool -> bool -> Q -> Z -> stumpi_obj St.
Variable update : stumpi_obj St -> upd_arg -> stumpi_obj St.
Variable stumpy_installed : bool.
Variable reduction : list Q -> Q.

Implicit Types (d ds : LeftSTAMPi St) (X : list Q) (o : stumpi_obj St).

Local Abbreviation fit := (_fit stumpi stumpy_installed).
Local Abbreviation fit_predict :=
  (_fit_predict stumpi update stumpy_installed reduction).
Local Abbreviation run_stream :=
  (stream stumpi update stumpy_installed reduction).

(** The scores of one call, from the object the call leaves behind. *)
Lemma scores_length o (w : Z) (len : Z) :
  0 < w ->
  Z.of_nat (length (_left_P o)) = len - w + 1 ->
  0 < len - w + 1 ->
  Z.of_nat (length (reverse_windowing reduction (_left_P o) w)) = len.
Proof.
  intros Hw Hlen Hpos. rewrite reverse_windowing_length. lia.
Qed.

(** C2 (amended): [fit_predict X] returns as many scores as [X] has points;
    in stream mode the call [predict([x])] number [j] (from 0) returns one
    score for every point seen so far, [len(X_train) + j + 1] of them, and
    not one score for the one-element array it was passed. *)
Theorem score_lengths X d n X_train X_stream ds :
  stumpy_installed = true ->
  profile_lengths stumpi update ->
  array_as_scalar update ->
  3 <= window_size d <= Z.of_nat (length X) ->
  n_init_train d = Some n ->
  window_size d <= n ->
  1 <= k d <= Z.of_nat (length X) - window_size d ->
  3 <= window_size ds <= Z.of_nat (length X_train) ->
  1 <= k ds <= Z.of_nat (length X_train) - window_size ds ->
  (exists scores d',
      fit_predict X d = (Ok scores, d') /\ length scores = length X)
  /\ (exists outs ds',
         run_stream X_train X_stream ds = (Ok outs, ds')
         /\ length outs = length X_stream
         /\ forall j score,
             nth_error outs j = Some score ->
             length score = (length X_train + j + 1)%nat).
Proof.
  intros Hinst Hlen Harr Hw Hn Hwn Hk Hws Hks. split.
  - eexists. eexists. split.
    + apply fit_predict_ok with (n := n); assumption.
    + apply Nat2Z.inj. apply scores_length; [lia | | lia].
      apply batch_obj_length with (n := n); assumption.
  - eexists. eexists. split; [|split].
    + apply stream_ok; assumption.
    + rewrite length_map. apply stream_objs_count.
    + intros j score Hj. rewrite nth_error_map in Hj.
      destruct (nth_error (stream_objs _ _ _ _) j) as [o'|] eqn:Eo;
        [|discriminate].
      simpl in Hj. injection Hj as <-.
      apply stream_objs_length with (stumpi := stumpi) in Eo;
        [| exact Hlen | exact Harr].
      pose proof (fresh_obj_length stumpi update ds X_train Hlen) as Hf.
      rewrite reverse_windowing_length. lia.
Qed.

(** C3: the first [n_init_train] scores returned by [fit_predict] are 0, and
    so are, in stream mode, the first [len(X_train)] scores returned by every
    [predict] call ([fit] has set [n_init_train] to [len(X_train)]). *)
Theorem warm_up_scores_are_zero X d n X_train X_stream ds :
  stumpy_installed = true ->
  profile_lengths stumpi update ->
  array_as_scalar update ->
  reduction_zero reduction ->
  3 <= window_size d <= Z.of_nat (length X) ->
  n_init_train d = Some n ->
  window_size d <= n ->
  1 <= k d <= Z.of_nat (length X) - window_size d ->
  3 <= window_size ds <= Z.of_nat (length X_train) ->
  1 <= k ds <= Z.of_nat (length X_train) - window_size ds ->
  (exists scores d',
      fit_predict X d = (Ok scores, d')
      /\ length scores = length X
      /\ Forall (fun q => q == 0)%Q (firstn (Z.to_nat n) scores))
  /\ (exists outs ds',
         run_stream X_train X_stream ds = (Ok outs, ds')
         /\ n_init_train ds' = Some (Z.of_nat (length X_train))
         /\ length outs = length X_stream
         /\ Forall (fun score =>
                      (length X_train <= length score)%nat
                      /\ Forall (fun q => q == 0)%Q
                           (firstn (length X_train) score)) outs).
Proof.
  intros Hinst Hlen Harr Hred Hw Hn Hwn Hk Hws Hks. split.
  - eexists. eexists. split; [|split].
    + apply fit_predict_ok with (n := n); assumption.
    + apply Nat2Z.inj. apply scores_length; [lia | | lia].
      apply batch_obj_length with (n := n); assumption.
    + pose proof (batch_obj_length stumpi update d X n Hlen Hw Hn Hwn) as HL.
      apply reverse_windowing_zero_prefix; [exact Hred | lia | lia |].
      unfold batch_obj. rewrite Hn. apply zero_obj_prefix. lia.
  - eexists. eexists. split; [|split; [|split]].
    + apply stream_ok; assumption.
    + reflexivity.
    + rewrite length_map. apply stream_objs_count.
    + apply Forall_map.
      set (o0 := fresh_obj stumpi ds X_train).
      set (stop := Z.of_nat (length X_train)).
      pose proof (stream_objs_zeroed update stop o0 X_stream
                    (Nat2Z.is_nonneg _)) as Hz.
      pose proof (stream_objs_nonempty stumpi update (Some stop) o0 X_stream
                    Hlen Harr) as Hne.
      assert (Hge : Forall (fun o' =>
                              (length (_left_P o0) < length (_left_P o'))%nat)
                      (stream_objs update (Some stop) o0 X_stream)).
      { apply Forall_forall. intros o' Hin.
        apply In_nth_error in Hin. destruct Hin as [j Hj].
        apply stream_objs_length with (stumpi := stumpi) in Hj;
          [lia | exact Hlen | exact Harr]. }
      pose proof (fresh_obj_length stumpi update ds X_train Hlen) as Hf.
      fold o0 in Hf.
      rewrite Forall_forall in Hz, Hne, Hge. apply Forall_forall.
      intros o' Hin. split.
      * rewrite reverse_windowing_length. specialize (Hge o' Hin). lia.
      * replace (length X_train) with (Z.to_nat stop) by (unfold stop; lia).
        apply reverse_windowing_zero_prefix;
          [exact Hred | lia | apply Hne, Hin | apply Hz, Hin].
Qed.

(** C7: when the engine yields non-negative left-profile distances, every
    score returned by [fit_predict], and by every [predict] call in stream
    mode, is non-negative. *)
Theorem scores_are_nonnegative X d n X_train X_stream ds :
  stumpy_installed = true ->
  profile_lengths stumpi update ->
  array_as_scalar update ->
  profile_nonneg stumpi update ->
  reduction_nonneg reduction ->
  3 <= window_size d <= Z.of_nat (length X) ->
  n_init_train d = Some n ->
  window_size d <= n ->
  1 <= k d <= Z.of_nat (length X) - window_size d ->
  3 <= window_size ds <= Z.of_nat (length X_train) ->
  1 <= k ds <= Z.of_nat (length X_train) - window_size ds ->
  (exists scores d',
      fit_predict X d = (Ok scores, d')
      /\ Forall (Qle 0) scores)
  /\ (exists outs ds',
         run_stream X_train X_stream ds = (Ok outs, ds')
         /\ length outs = length X_stream
         /\ Forall (Forall (Qle 0)) outs).
Proof.
  intros Hinst Hlen Harr Hnn Hred Hw Hn Hwn Hk Hws Hks. split.
  - eexists. eexists. split.
    + apply fit_predict_ok with (n := n); assumption.
    + pose proof (batch_obj_length stumpi update d X n Hlen Hw Hn Hwn) as HL.
      apply reverse_windowing_nonneg; [exact Hred | lia | lia |].
      apply batch_obj_nonneg, Hnn.
  - eexists. eexists. split; [|split].
    + apply stream_ok; assumption.
    + rewrite length_map. apply stream_objs_count.
    + apply Forall_map.
      set (o0 := fresh_obj stumpi ds X_train).
      pose proof (stream_objs_nonempty stumpi update
                    (Some (Z.of_nat (length X_train))) o0 X_stream
                    Hlen Harr) as Hne.
      assert (H0 : Forall (Qle 0) (_left_P o0)).
      { destruct Hnn as [Hnew _]. apply Hnew. }
      pose proof (stream_objs_nonneg stumpi update
                    (Some (Z.of_nat (length X_train))) o0 X_stream
                    Harr Hnn H0) as Hpos.
      rewrite Forall_forall in Hne, Hpos. apply Forall_forall.
      intros o' Hin.
      apply reverse_windowing_nonneg;
        [exact Hred | lia | apply Hne, Hin | apply Hpos, Hin].
Qed.

End ScoreClaims.

(** ** Stream mode against batch mode *)

Lemma last_map {A B : Type} (f : A -> B) (l : list A) (a : A) (b : B) :
  l <> [] -> last (map f l) b = f (last l a).
Proof.
  induction l as [|x l IH]; intros Hne; [contradiction|].
  destruct l as [|y l]; [reflexivity|].
  change (last (map f (y :: l)) b = f (last (y :: l) a)).
  apply IH. discriminate.
Qed.

Section StreamAgainstBatch.

Context {St : Type}.
Variable stumpi : list Q -> Z -> bool -> bool -> Q -> Z -> stumpi_obj St.
Variable update : stumpi_obj St -> upd_arg -> stumpi_obj St.
Variable stumpy_installed : bool.
Variable reduction : list Q -> Q.

Implicit Types (d ds : LeftSTAMPi St) (X : list Q) (o : stumpi_obj St).

(** Two objects that agree once their warm-up region is zeroed still do
    after [predict([x])] on one and [update(x)] on the other. *)
Lemma zero_obj_step (n : Z) o o' x :
  0 <= n ->
  update_appends update ->
  array_as_scalar update ->
  zero_obj (Some n) o = zero_obj (Some n) o' ->
  zero_obj (Some n) (zero_obj (Some n) (update o (Arr [x])))
  = zero_obj (Some n) (update o' (Scalar x)).
Proof.
  intros Hn (next_rest & next_dist & Happ) Harr Heq.
  rewrite Harr, !Happ. unfold zero_obj in *. simpl in *.
  injection Heq as Hrest Hprof. rewrite Hrest. f_equal.
  rewrite <- (app_nil_r (slice_fill_to (Some n) 0%Q (_ ++ _))).
  rewrite slice_fill_to_absorb, app_nil_r by exact Hn.
  rewrite <- (slice_fill_to_absorb n 0%Q (_left_P o)) by exact Hn.
  rewrite <- (slice_fill_to_absorb n 0%Q (_left_P o')) by exact Hn.
  rewrite Hprof. reflexivity.
Qed.

Lemma zero_obj_idempotent (n : Z) o :
  0 <= n -> zero_obj (Some n) (zero_obj (Some n) o) = zero_obj (Some n) o.
Proof.
  intros Hn. unfold zero_obj. simpl. f_equal.
  rewrite <- (app_nil_r (slice_fill_to (Some n) 0%Q (_left_P o))).
  rewrite slice_fill_to_absorb, !app_nil_r by exact Hn. reflexivity.
Qed.

(** The object after the last [predict] call of a stream is the object that
    the same updates, followed by one zeroing, produce. *)
Lemma stream_objs_last (n : Z) xs o o' :
  0 <= n ->
  update_appends update ->
  array_as_scalar update ->
  zero_obj (Some n) o = zero_obj (Some n) o' ->
  xs <> [] ->
  last (stream_objs update (Some n) o xs) o
  = zero_obj (Some n) (update_all update o' xs).
Proof.
  intros Hn Happ Harr. revert o o'.
  induction xs as [|x xs IH]; intros o o' Heq Hne; [contradiction|].
  pose proof (zero_obj_step n o o' x Hn Happ Harr Heq) as Hstep.
  cbn [stream_objs]. set (o1 := zero_obj (Some n) (update o (Arr [x]))) in *.
  destruct xs as [|x2 xs].
  - simpl. unfold o1 in *. rewrite zero_obj_idempotent in Hstep by exact Hn.
    exact Hstep.
  - change (update_all update o' (x :: x2 :: xs))
      with (update_all update (update o' (Scalar x)) (x2 :: xs)).
    rewrite <- (IH o1 (update o' (Scalar x)) Hstep) by discriminate.
    cbn [stream_objs]. cbn [last].
    apply last_cons_default.
Qed.

(** Stream mode agrees with batch mode where [fit] accepts the training
    segment: with [k <= n_init_train - window_size] and at least one streamed
    point, the scores of the last [predict] call are those of
    [fit_predict] on the whole series. *)
Theorem stream_equals_batch X d ds n :
  stumpy_installed = true ->
  update_appends update ->
  array_as_scalar update ->
  n_init_train d = Some n ->
  window_size ds = window_size d ->
  normalize ds = normalize d ->
  p ds = p d ->
  k ds = k d ->
  3 <= window_size d <= n ->
  n < Z.of_nat (length X) ->
  1 <= k d <= n - window_size d ->
  exists scores d' ds',
    _fit_predict stumpi update stumpy_installed reduction X d
    = (Ok scores, d')
    /\ stream_score stumpi update stumpy_installed reduction
         (slice_to (Some n) X) (slice_from (Some n) X) ds
       = (Ok scores, ds').
Proof.
  intros Hinst Happ Harr Hn Hw Hnz Hp Hk Hwn HnX Hkn.
  pose proof (slice_to_length n X ltac:(lia)) as Hto.
  pose proof (slice_from_length n X ltac:(lia)) as Hfrom.
  rewrite Z.min_l in Hto, Hfrom by lia.
  eexists. eexists. eexists. split.
  - apply fit_predict_ok with (n := n); [assumption | lia | assumption | lia | lia].
  - unfold stream_score. unfold bind at 1.
    rewrite stream_ok; [| exact Hinst | rewrite Hto, Hw; lia
                        | rewrite Hto, Hk, Hw; lia].
    unfold ret. rewrite Hto.
    assert (Hne : slice_from (Some n) X <> []).
    { intros E. rewrite E in Hfrom. simpl in Hfrom. lia. }
    assert (Hfresh : fresh_obj stumpi ds (slice_to (Some n) X)
                     = fresh_obj stumpi d (slice_to (Some n) X)).
    { unfold fresh_obj. rewrite Hw, Hnz, Hp, Hk. reflexivity. }
    rewrite Hfresh.
    set (o0 := fresh_obj stumpi d (slice_to (Some n) X)).
    rewrite (last_map _ _ o0).
    2:{ intros E. apply (f_equal (@length _)) in E.
        rewrite stream_objs_count in E.
        destruct (slice_from (Some n) X); [contradiction | discriminate]. }
    rewrite (stream_objs_last n _ o0 o0) by (auto || lia).
    unfold batch_obj. rewrite Hn, Hw. fold o0. reflexivity.
Qed.

(** C9: [fit] stores [len(X)] in [n_init_train] before it validates, even
    when validation then fails, so that the value given at construction
    plays no part; the [ValueError]s of [fit] are those of the window size
    and of [k] against [len(X) - window_size] for the training series [X];
    and every later [predict] call returns 0 for the first [len(X)]
    points. *)
Theorem fit_overwrites_n_init_train X d v X_stream :
  n_init_train (snd (_fit stumpi stumpy_installed X d))
  = Some (Z.of_nat (length X))
  /\ _fit stumpi stumpy_installed X (set_n_init_train d v)
     = _fit stumpi stumpy_installed X d
  /\ (is_ValueError (fst (_fit stumpi stumpy_installed X d)) = true
      <-> (window_size d < 3 \/ window_size d > Z.of_nat (length X)
           \/ k d < 1 \/ k d > Z.of_nat (length X) - window_size d))
  /\ (stumpy_installed = true ->
      profile_lengths stumpi update ->
      array_as_scalar update ->
      reduction_zero reduction ->
      3 <= window_size d <= Z.of_nat (length X) ->
      1 <= k d <= Z.of_nat (length X) - window_size d ->
      exists outs d',
        stream stumpi update stumpy_installed reduction X X_stream d
        = (Ok outs, d')
        /\ n_init_train d' = Some (Z.of_nat (length X))
        /\ Forall (fun score =>
                     Forall (fun q => q == 0)%Q (firstn (length X) score))
                  outs).
Proof.
  split; [apply fit_n_init_train|].
  split; [reflexivity|].
  split; [apply fit_ValueError_iff|].
  intros Hinst Hlen Harr Hred Hw Hk.
  eexists. eexists. split; [|split].
  - apply stream_ok; assumption.
  - reflexivity.
  - apply Forall_map.
    set (o0 := fresh_obj stumpi d X).
    set (stop := Z.of_nat (length X)).
    pose proof (stream_objs_zeroed update stop o0 X_stream
                  (Nat2Z.is_nonneg _)) as Hz.
    pose proof (stream_objs_nonempty stumpi update (Some stop) o0 X_stream
                  Hlen Harr) as Hne.
    rewrite Forall_forall in Hz, Hne. apply Forall_forall.
    intros o' Hin.
    replace (length X) with (Z.to_nat stop) by (unfold stop; lia).
    apply reverse_windowing_zero_prefix;
      [exact Hred | lia | apply Hne, Hin | apply Hz, Hin].
Qed.

End StreamAgainstBatch.

(** * The claims on concrete inputs *)

(** In stream mode, [fit] validates [k] against the training segment: a
    segment no longer than [window_size + k - 1] is rejected, whatever
    follows in the stream. *)
Lemma stream_rejects_short_training {St : Type}
    (stumpi : list Q -> Z -> bool -> bool -> Q -> Z -> stumpi_obj St)
    (update : stumpi_obj St -> upd_arg -> stumpi_obj St)
    (stumpy_installed : bool) (reduction : list Q -> Q)
    (d : LeftSTAMPi St) (X_train X_stream : list Q) :
  3 <= window_size d <= Z.of_nat (length X_train) ->
  k d > Z.of_nat (length X_train) - window_size d ->
  stream stumpi update stumpy_installed reduction X_train X_stream d
  = (Raise (ValueError msg_k),
     set_n_init_train d (Some (Z.of_nat (length X_train)))).
Proof.
  intros Hw Hk. unfold stream. unfold bind at 1.
  rewrite (fit_check_raise stumpi stumpy_installed X_train d
             (ValueError msg_k)); [reflexivity|].
  apply check_params_k with (n := Z.of_nat (length X_train));
    [exact Hw | reflexivity | simpl; lia | right; exact Hk].
Qed.

(** C1: the two examples of the class documentation, on a series of ten
    points with [window_size = 3], [n_init_train = 3] and [k = 1].  Batch
    mode returns ten scores; stream mode stops in [fit], which raises the
    [ValueError] on [k] for the three training points, so that no [predict]
    call is reached and no score is produced. *)
Theorem documented_stream_example_is_rejected :
  fst (_fit_predict ref_stumpi ref_update true Qmean X10 batch_detector)
  = Ok [0; 0; 0; 9 # 50; 107 # 300; 167 # 300; 34 # 75; 149 # 300;
        89 # 200; 33 # 50]%Q
  /\ fst (stream_score ref_stumpi ref_update true Qmean
            (slice_to (Some 3) X10) (slice_from (Some 3) X10) stream_detector)
     = Raise (ValueError msg_k).
Proof.
  split; vm_compute; reflexivity.
Qed.

Lemma stream_equals_batch_example :
  exists scores d' ds',
    _fit_predict ref_stumpi ref_update true Qmean X10
      (__init__ (list Q * nat) 3 (Some 4) true 2%Q 1)
    = (Ok scores, d')
    /\ stream_score ref_stumpi ref_update true Qmean
         X10_train X10_stream stream_detector
       = (Ok scores, ds').
Proof.
  apply (stream_equals_batch ref_stumpi ref_update true Qmean X10
           (__init__ (list Q * nat) 3 (Some 4) true 2%Q 1)
           stream_detector 4);
    try reflexivity; try (simpl; lia).
  - apply ref_update_appends.
  - apply ref_array_as_scalar.
Defined.

(** C2, as stated, fails for [predict]: after [fit] on four points, the call
    [predict([x])] returns five scores for the one-element array it was
    passed. *)
Lemma predict_returns_scores_of_whole_series :
  exists score,
    fst (_predict ref_update Qmean [9 # 100]%Q
           (snd (_fit ref_stumpi true X10_train stream_detector)))
    = Ok score
    /\ length score = 5%nat
    /\ length score <> length [9 # 100]%Q.
Proof.
  eexists. split; [vm_compute; reflexivity|].
  split; [reflexivity | discriminate].
Qed.

Lemma score_lengths_witness :
  (exists scores d',
      _fit_predict ref_stumpi ref_update true Qmean X10 batch_detector
      = (Ok scores, d')
      /\ length scores = length X10)
  /\ (exists outs ds',
         stream ref_stumpi ref_update true Qmean
           X10_train X10_stream stream_detector
         = (Ok outs, ds')
         /\ length outs = length X10_stream
         /\ forall j score,
             nth_error outs j = Some score ->
             length score = (length X10_train + j + 1)%nat).
Proof.
  apply (score_lengths ref_stumpi ref_update true Qmean X10 batch_detector 3
           X10_train X10_stream stream_detector);
    try reflexivity; try (simpl; lia).
  - apply ref_profile_lengths.
  - apply ref_array_as_scalar.
Defined.

Lemma warm_up_scores_are_zero_witness :
  (exists scores d',
      _fit_predict ref_stumpi ref_update true Qmean X10 batch_detector
      = (Ok scores, d')
      /\ length scores = length X10
      /\ Forall (fun q => q == 0)%Q (firstn (Z.to_nat 3) scores))
  /\ (exists outs ds',
         stream ref_stumpi ref_update true Qmean
           X10_train X10_stream stream_detector
         = (Ok outs, ds')
         /\ n_init_train ds' = Some (Z.of_nat (length X10_train))
         /\ length outs = length X10_stream
         /\ Forall (fun score =>
                      (length X10_train <= length score)%nat
                      /\ Forall (fun q => q == 0)%Q
                           (firstn (length X10_train) score))
                   outs).
Proof.
  apply (warm_up_scores_are_zero ref_stumpi ref_update true Qmean X10
           batch_detector 3
           X10_train X10_stream stream_detector);
    try reflexivity; try (simpl; lia).
  - apply ref_profile_lengths.
  - apply ref_array_as_scalar.
  - apply Qmean_zero.
Defined.

Lemma scores_are_nonnegative_witness :
  (exists scores d',
      _fit_predict ref_stumpi ref_update true Qmean X10 batch_detector
      = (Ok scores, d')
      /\ Forall (Qle 0) scores)
  /\ (exists outs ds',
         stream ref_stumpi ref_update true Qmean
           X10_train X10_stream stream_detector
         = (Ok outs, ds')
         /\ length outs = length X10_stream
         /\ Forall (Forall (Qle 0)) outs).
Proof.
  apply (scores_are_nonnegative ref_stumpi ref_update true Qmean X10
           batch_detector 3
           X10_train X10_stream stream_detector);
    try reflexivity; try (simpl; lia).
  - apply ref_profile_lengths.
  - apply ref_array_as_scalar.
  - apply ref_profile_nonneg.
  - apply Qmean_nonneg.
Defined.

Lemma invalid_window_size_raises_witness :
  fst (_fit ref_stumpi true X2 stream_detector) = Raise (ValueError msg_window)
  /\ fst (_fit_predict ref_stumpi ref_update true Qmean X2 batch_detector)
     = Raise (ValueError msg_window).
Proof.
  split.
  - apply (invalid_window_size_raises ref_stumpi ref_update true Qmean X2
             stream_detector).
    right. simpl. lia.
  - apply (invalid_window_size_raises ref_stumpi ref_update true Qmean X2
             batch_detector).
    right. simpl. lia.
Defined.

Lemma invalid_k_raises_iff_witness :
  is_ValueError (fst (_fit ref_stumpi true X10 large_k_detector)) = true
  /\ is_ValueError
       (fst (_fit_predict ref_stumpi ref_update true Qmean X10
               large_k_detector)) = true.
Proof.
  assert (H : 3 <= window_size large_k_detector <= Z.of_nat (length X10))
    by (simpl; lia).
  assert (Hn : window_size large_k_detector <= 3) by (simpl; lia).
  destruct (invalid_k_raises_iff ref_stumpi ref_update true Qmean X10
              large_k_detector 3 H eq_refl Hn) as [Hfit Hfp].
  split; [apply Hfit | apply Hfp]; right; simpl; lia.
Defined.

Lemma window_above_n_init_train_raises_witness :
  _fit_predict ref_stumpi ref_update true Qmean X10 wide_window_detector
  = (Raise (ValueError (msg_n_init_train 3)), wide_window_detector).
Proof.
  apply (window_above_n_init_train_raises ref_stumpi ref_update true Qmean
           X10 wide_window_detector 3).
  - simpl. lia.
  - reflexivity.
  - simpl. lia.
Defined.

Lemma default_n_init_train_TypeError_witness :
  _fit_predict ref_stumpi ref_update true Qmean X10 stream_detector
  = (Raise (TypeError msg_gt_None), stream_detector)
  /\ is_ValueError
       (fst (_fit_predict ref_stumpi ref_update true Qmean X10
               stream_detector)) = false.
Proof.
  apply (default_n_init_train_TypeError ref_stumpi ref_update true Qmean
           X10 stream_detector).
  - reflexivity.
  - simpl. lia.
Defined.

(** C8, as stated, fails for [fit]: the call raises the [ValueError] on the
    window size, and the detector is not as it was, [n_init_train] having
    gone from [None] to [2]. *)
Lemma fit_error_changes_n_init_train :
  is_ValueError (fst (_fit ref_stumpi true X2 stream_detector)) = true
  /\ n_init_train stream_detector = None
  /\ n_init_train (snd (_fit ref_stumpi true X2 stream_detector)) = Some 2
  /\ snd (_fit ref_stumpi true X2 stream_detector) <> stream_detector.
Proof.
  repeat split. vm_compute. discriminate.
Qed.

Lemma exception_leaves_state_witness :
  snd (_fit_predict ref_stumpi ref_update true Qmean X2 batch_detector)
  = batch_detector
  /\ snd (_fit ref_stumpi true X2 stream_detector)
     = set_n_init_train stream_detector (Some 2)
  /\ mp (snd (_fit ref_stumpi true X2 stream_detector)) = mp stream_detector.
Proof.
  split.
  - apply (proj1 (exception_leaves_state ref_stumpi ref_update true Qmean X2
                    batch_detector (ValueError msg_window))).
    reflexivity.
  - apply (proj2 (exception_leaves_state ref_stumpi ref_update true Qmean X2
                    stream_detector (ValueError msg_window))).
    reflexivity.
Defined.

Lemma fit_overwrites_n_init_train_witness :
  n_init_train
    (snd (_fit ref_stumpi true X10_train batch_detector))
  = Some 4
  /\ exists outs d',
      stream ref_stumpi ref_update true Qmean
        X10_train X10_stream batch_detector
      = (Ok outs, d')
      /\ n_init_train d' = Some 4
      /\ Forall (fun score =>
                   Forall (fun q => q == 0)%Q (firstn 4 score)) outs.
Proof.
  destruct (fit_overwrites_n_init_train ref_stumpi ref_update true Qmean
              X10_train batch_detector None
              X10_stream) as (Hset & _ & _ & Hwarm).
  split; [exact Hset|].
  apply Hwarm; try reflexivity; try (simpl; lia).
  - apply ref_profile_lengths.
  - apply ref_array_as_scalar.
  - apply Qmean_zero.
Defined.

(** * Further properties of the methods *)

(** ** Which call raises what *)



Section Outcomes.

Context {St : Type}.
Variable stumpi : list Q -> Z -> bool -> bool -> Q -> Z -> stumpi_obj St.
Variable update : stumpi_obj St -> upd_arg -> stumpi_obj St.
Variable stumpy_installed : bool.
Variable reduction : list Q -> Q.

Implicit Types (d : LeftSTAMPi St) (X : list Q) (o : stumpi_obj St).

Local Abbreviation fit := (_fit stumpi stumpy_installed).
Local Abbreviation fit_predict :=
  (_fit_predict stumpi update stumpy_installed reduction).

(** Validation reads [window_size], [n_init_train] and [k] only. *)
Lemma check_params_set_mp X d (m : option (stumpi_obj St)) :
  _check_params X (set_mp d m)
  = (fst (_check_params X d), set_mp d m).
Proof.
  unfold _check_params. unfold_M. cbn [set_mp window_size n_init_train k].
  destruct (_ || _); [reflexivity|].
  destruct (n_init_train d) as [n|]; [|reflexivity].
  destruct (window_size d >? n); [reflexivity|].
  destruct (_ || _); reflexivity.
Qed.

(** The outcome of [_fit_predict], case by case. *)
Lemma fit_predict_cases X d :
  (fit_predict X d = (Raise (ValueError msg_window), d)
   /\ (window_size d < 3 \/ window_size d > Z.of_nat (length X)))
  \/ (fit_predict X d = (Raise (TypeError msg_gt_None), d)
      /\ 3 <= window_size d <= Z.of_nat (length X)
      /\ n_init_train d = None)
  \/ (exists n,
         fit_predict X d = (Raise (ValueError (msg_n_init_train n)), d)
         /\ 3 <= window_size d <= Z.of_nat (length X)
         /\ n_init_train d = Some n /\ window_size d > n)
  \/ (exists n,
         fit_predict X d = (Raise (ValueError msg_k), d)
         /\ 3 <= window_size d <= Z.of_nat (length X)
         /\ n_init_train d = Some n /\ window_size d <= n
         /\ (k d < 1 \/ k d > Z.of_nat (length X) - window_size d))
  \/ (exists n,
         fit_predict X d
         = (if stumpy_installed
            then (Ok (reverse_windowing reduction
                        (_left_P (batch_obj stumpi update d X))
                        (window_size d)),
                  set_mp d (Some (batch_obj stumpi update d X)))
            else (Raise (ModuleNotFoundError "stumpy"), d))
         /\ 3 <= window_size d <= Z.of_nat (length X)
         /\ n_init_train d = Some n /\ window_size d <= n
         /\ 1 <= k d <= Z.of_nat (length X) - window_size d).
Proof.
  destruct (check_params_cases X d)
    as [[E H] | [[E H] | [(n & E & H) | [(n & E & H) | (n & E & H)]]]].
  - left. split; [apply fit_predict_check_raise, E | exact H].
  - right. left. split; [apply fit_predict_check_raise, E | exact H].
  - right. right. left. exists n.
    split; [apply fit_predict_check_raise, E | exact H].
  - right. right. right. left. exists n.
    split; [apply fit_predict_check_raise, E | exact H].
  - right. right. right. right. exists n.
    split; [apply fit_predict_check_ok, E | exact H].
Qed.

(** The outcome of [_fit], case by case. *)
Lemma fit_cases X d :
  let d1 := set_n_init_train d (Some (Z.of_nat (length X))) in
  (fit X d = (Raise (ValueError msg_window), d1)
   /\ (window_size d < 3 \/ window_size d > Z.of_nat (length X)))
  \/ (fit X d = (Raise (ValueError msg_k), d1)
      /\ 3 <= window_size d <= Z.of_nat (length X)
      /\ (k d < 1 \/ k d > Z.of_nat (length X) - window_size d))
  \/ (fit X d
      = (if stumpy_installed
         then (Ok tt, set_mp d1 (Some (fresh_obj stumpi d X)))
         else (Raise (ModuleNotFoundError "stumpy"), d1))
      /\ 3 <= window_size d <= Z.of_nat (length X)
      /\ 1 <= k d <= Z.of_nat (length X) - window_size d).
Proof.
  intros d1.
  destruct (check_params_cases X d1)
    as [[E H] | [[E H] | [(n & E & H) | [(n & E & H) | (n & E & H)]]]];
    simpl in H.
  - left. split; [apply fit_check_raise, E | exact H].
  - destruct H as (_ & H). discriminate.
  - destruct H as (Hw & Hn & Hgt). injection Hn as <-. lia.
  - right. left. split; [apply fit_check_raise, E|].
    destruct H as (Hw & _ & _ & Hk). split; assumption.
  - right. right. split; [apply fit_check_ok, E|].
    destruct H as (Hw & _ & _ & Hk). split; assumption.
Qed.




(** X4: a missing [stumpy] is reported only after validation has passed:
    [fit] and [fit_predict] raise [ModuleNotFoundError] exactly when the
    package cannot be imported and the parameters are valid for the call;
    [fit_predict] then leaves the detector as it was. *)
Theorem ModuleNotFoundError_iff X d :
  ((exists msg,
       fst (_fit stumpi stumpy_installed X d)
       = Raise (ModuleNotFoundError msg))
   <-> (stumpy_installed = false
        /\ 3 <= window_size d <= Z.of_nat (length X)
        /\ 1 <= k d <= Z.of_nat (length X) - window_size d))
  /\ ((exists msg,
          fst (_fit_predict stumpi update stumpy_installed reduction X d)
          = Raise (ModuleNotFoundError msg))
      <-> (stumpy_installed = false
           /\ 3 <= window_size d <= Z.of_nat (length X)
           /\ (exists n, n_init_train d = Some n /\ window_size d <= n)
           /\ 1 <= k d <= Z.of_nat (length X) - window_size d))
  /\ (forall msg,
         fst (_fit_predict stumpi update stumpy_installed reduction X d)
         = Raise (ModuleNotFoundError msg) ->
         snd (_fit_predict stumpi update stumpy_installed reduction X d) = d).
Proof.
  split; [|split].
  - destruct (fit_cases X d) as [[E H] | [[E H] | [E H]]]; rewrite E.
    + split; [intros (msg & Hm); discriminate | intros (_ & Hw & _); lia].
    + split; [intros (msg & Hm); discriminate | intros (_ & _ & Hk); lia].
    + destruct stumpy_installed.
      * split; [intros (msg & Hm); discriminate
               | intros (Hf & _); discriminate].
      * split; [intros _; split; [reflexivity | exact H]
               | intros _; eexists; reflexivity].
  - destruct (fit_predict_cases X d)
      as [[E H] | [[E H] | [(n & E & H) | [(n & E & H) | (n & E & H)]]]];
      rewrite E.
    + split; [intros (msg & Hm); discriminate | intros (_ & Hw & _); lia].
    + split; [intros (msg & Hm); discriminate|].
      intros (_ & _ & (n & Hn & _) & _). destruct H as (_ & HN).
      rewrite HN in Hn. discriminate.
    + split; [intros (msg & Hm); discriminate|].
      intros (_ & _ & (n' & Hn & Hwn) & _). destruct H as (_ & HN & Hgt).
      rewrite HN in Hn. injection Hn as <-. lia.
    + split; [intros (msg & Hm); discriminate|].
      intros (_ & _ & _ & Hk). lia.
    + destruct H as (Hw & Hn & Hwn & Hk). destruct stumpy_installed.
      * split; [intros (msg & Hm); discriminate
               | intros (Hf & _); discriminate].
      * split.
        -- intros _. split; [reflexivity|]. split; [exact Hw|].
           split; [exists n; split; assumption | exact Hk].
        -- intros _. eexists. reflexivity.
  - intros msg. apply fit_predict_raise_state.
Qed.

End Outcomes.

(** ** What a call leaves in the detector *)

Section DetectorState.

Context {St : Type}.
Variable stumpi : list Q -> Z -> bool -> bool -> Q -> Z -> stumpi_obj St.
Variable update : stumpi_obj St -> upd_arg -> stumpi_obj St.
Variable stumpy_installed : bool.
Variable reduction : list Q -> Q.

Implicit Types (d : LeftSTAMPi St) (X : list Q) (o : stumpi_obj St).

Local Abbreviation fit := (_fit stumpi stumpy_installed).
Local Abbreviation fit_predict :=
  (_fit_predict stumpi update stumpy_installed reduction).
Local Abbreviation predict := (_predict update reduction).

Lemma predict_unfitted X d :
  mp d = None ->
  predict X d = (Raise (AttributeError msg_no_update), d).
Proof.
  intros Hmp. unfold _predict, mp_update. unfold_M. rewrite Hmp. reflexivity.
Qed.

(** X5: no method changes [window_size], [normalize], [p] or [k], whether it
    returns or raises; [fit_predict] and [predict] do not change
    [n_init_train] either. *)
Theorem methods_keep_hyperparameters X d :
  hyperparameters (snd (fit X d)) = hyperparameters d
  /\ (hyperparameters (snd (fit_predict X d)) = hyperparameters d
      /\ n_init_train (snd (fit_predict X d)) = n_init_train d)
  /\ (hyperparameters (snd (predict X d)) = hyperparameters d
      /\ n_init_train (snd (predict X d)) = n_init_train d).
Proof.
  split; [|split].
  - destruct (fit_cases stumpi stumpy_installed X d)
      as [[E _] | [[E _] | [E _]]]; rewrite E;
      try destruct stumpy_installed; reflexivity.
  - destruct (fit_predict_cases stumpi update stumpy_installed reduction X d)
      as [[E _] | [[E _] | [(n & E & _) | [(n & E & _) | (n & E & _)]]]];
      rewrite E; try destruct stumpy_installed; split; reflexivity.
  - destruct (mp d) as [o|] eqn:Hmp.
    + rewrite (predict_ok update reduction d o X Hmp). split; reflexivity.
    + rewrite (predict_unfitted X d Hmp). split; reflexivity.
Qed.

Lemma fit_predict_set_mp X d (m : option (stumpi_obj St)) :
  fit_predict X (set_mp d m)
  = match fit_predict X d with
    | (Ok scores, d') => (Ok scores, d')
    | (Raise e, _) => (Raise e, set_mp d m)
    end.
Proof.
  pose proof (check_params_state X d) as Hs.
  pose proof (check_params_set_mp X d m) as Hm.
  destruct (_check_params X d) as [[[]|e] d'] eqn:E; simpl in Hs, Hm; subst d'.
  - rewrite (fit_predict_check_ok stumpi update stumpy_installed reduction
               X d E).
    rewrite (fit_predict_check_ok stumpi update stumpy_installed reduction
               X (set_mp d m) Hm).
    destruct stumpy_installed; reflexivity.
  - rewrite (fit_predict_check_raise stumpi update stumpy_installed reduction
               X d e E).
    apply fit_predict_check_raise. exact Hm.
Qed.

Lemma fit_set_mp X d (m : option (stumpi_obj St)) :
  fit X (set_mp d m)
  = match fit X d with
    | (Ok u, d') => (Ok u, d')
    | (Raise e, d') => (Raise e, set_mp d' m)
    end.
Proof.
  set (d1 := set_n_init_train d (Some (Z.of_nat (length X)))).
  pose proof (check_params_state X d1) as Hs.
  pose proof (check_params_set_mp X d1 m) as Hm.
  destruct (_check_params X d1) as [[[]|e] d'] eqn:E; simpl in Hs, Hm; subst d'.
  - rewrite (fit_check_ok stumpi stumpy_installed X d E).
    rewrite (fit_check_ok stumpi stumpy_installed X (set_mp d m) Hm).
    destruct stumpy_installed; reflexivity.
  - rewrite (fit_check_raise stumpi stumpy_installed X d e E).
    apply (fit_check_raise stumpi stumpy_installed X (set_mp d m) e). exact Hm.
Qed.

Lemma fit_predict_Ok_state X d scores d' :
  fit_predict X d = (Ok scores, d') -> exists m, d' = set_mp d m.
Proof.
  intros E.
  destruct (fit_predict_cases stumpi update stumpy_installed reduction X d)
    as [[E' _] | [[E' _] | [(n & E' & _) | [(n & E' & _) | (n & E' & _)]]]];
    rewrite E in E'; try discriminate.
  clear E. destruct stumpy_installed; [|discriminate].
  injection E' as _ ->. eexists. reflexivity.
Qed.

Lemma fit_Ok_state X d u d' :
  fit X d = (Ok u, d') ->
  exists m, d' = set_mp (set_n_init_train d (Some (Z.of_nat (length X)))) m.
Proof.
  intros E.
  destruct (fit_cases stumpi stumpy_installed X d)
    as [[E' _] | [[E' _] | [E' _]]];
    rewrite E in E'; try discriminate.
  clear E. destruct stumpy_installed; [|discriminate].
  injection E' as _ ->. eexists. reflexivity.
Qed.

(** X6: the profile that the detector holds when [fit] or [fit_predict] is
    called plays no part in the outcome, and a call that succeeds replaces
    it: calling either method a second time with the same series gives what
    the first call gave, scores and detector. *)
Theorem previous_profile_is_forgotten X d (m : option (stumpi_obj St)) :
  fst (fit X (set_mp d m)) = fst (fit X d)
  /\ fst (fit_predict X (set_mp d m)) = fst (fit_predict X d)
  /\ fit X (snd (fit X d)) = fit X d
  /\ fit_predict X (snd (fit_predict X d)) = fit_predict X d.
Proof.
  split; [|split; [|split]].
  - rewrite fit_set_mp. destruct (fit X d) as [[u|e] d']; reflexivity.
  - rewrite fit_predict_set_mp.
    destruct (fit_predict X d) as [[s|e] d']; reflexivity.
  - destruct (fit X d) as [[u|e] d'] eqn:E; cbn [snd].
    + destruct (fit_Ok_state X d u d' E) as [m' ->].
      rewrite fit_set_mp.
      change (fit X (set_n_init_train d (Some (Z.of_nat (length X)))))
        with (fit X d).
      rewrite E. reflexivity.
    + pose proof (fit_raise_state stumpi stumpy_installed X d e) as Hs.
      rewrite E in Hs. cbn [fst snd] in Hs. specialize (Hs eq_refl).
      subst d'. exact E.
  - destruct (fit_predict X d) as [[s|e] d'] eqn:E; cbn [snd].
    + destruct (fit_predict_Ok_state X d s d' E) as [m' ->].
      rewrite fit_predict_set_mp, E. reflexivity.
    + pose proof (fit_predict_raise_state stumpi update stumpy_installed
                    reduction X d e) as Hs.
      rewrite E in Hs. cbn [fst snd] in Hs. specialize (Hs eq_refl).
      subst d'. exact E.
Qed.


End DetectorState.

(** ** Scores across calls *)

Lemma slice_to_app_exact {A : Type} (X Y : list A) :
  slice_to (Some (Z.of_nat (length X))) (X ++ Y) = X.
Proof.
  unfold slice_to. simpl. rewrite slice_index_nonneg by lia.
  rewrite Nat2Z.id, length_app, Nat.min_l by lia.
  rewrite firstn_app, Nat.sub_diag, firstn_all. simpl. apply app_nil_r.
Qed.

Lemma slice_from_app_exact {A : Type} (X Y : list A) :
  slice_from (Some (Z.of_nat (length X))) (X ++ Y) = Y.
Proof.
  unfold slice_from. simpl. rewrite slice_index_nonneg by lia.
  rewrite Nat2Z.id, length_app, Nat.min_l by lia.
  rewrite skipn_app, Nat.sub_diag, skipn_all. reflexivity.
Qed.

Lemma slice_to_app_within {A : Type} (n : Z) (X Y : list A) :
  0 <= n <= Z.of_nat (length X) ->
  slice_to (Some n) (X ++ Y) = slice_to (Some n) X.
Proof.
  intros Hn. unfold slice_to. simpl. rewrite !slice_index_nonneg by lia.
  rewrite length_app, !Nat.min_l by lia.
  rewrite firstn_app. replace (Z.to_nat n - length X)%nat with 0%nat by lia.
  simpl. apply app_nil_r.
Qed.

Lemma slice_from_app_within {A : Type} (n : Z) (X Y : list A) :
  0 <= n <= Z.of_nat (length X) ->
  slice_from (Some n) (X ++ Y) = slice_from (Some n) X ++ Y.
Proof.
  intros Hn. unfold slice_from. simpl. rewrite !slice_index_nonneg by lia.
  rewrite length_app, !Nat.min_l by lia.
  rewrite skipn_app. replace (Z.to_nat n - length X)%nat with 0%nat by lia.
  reflexivity.
Qed.

Lemma reverse_windowing_all_zero (reduction : list Q -> Q) (y : list Q)
    (w : Z) :
  reduction_zero reduction -> 0 < w -> (0 < length y)%nat ->
  Forall (fun q => q == 0)%Q y ->
  Forall (fun q => q == 0)%Q (reverse_windowing reduction y w).
Proof.
  intros Hr Hw Hlen Hy.
  rewrite <- (firstn_all (reverse_windowing reduction y w)).
  rewrite reverse_windowing_length.
  apply reverse_windowing_zero_prefix; [exact Hr | exact Hw | exact Hlen |].
  rewrite firstn_all2 by lia. exact Hy.
Qed.

Section ScoresAcrossCalls.

Context {St : Type}.
Variable stumpi : list Q -> Z -> bool -> bool -> Q -> Z -> stumpi_obj St.
Variable update : stumpi_obj St -> upd_arg -> stumpi_obj St.
Variable stumpy_installed : bool.
Variable reduction : list Q -> Q.

Implicit Types (d ds : LeftSTAMPi St) (X : list Q) (o : stumpi_obj St).

Local Abbreviation fit_predict :=
  (_fit_predict stumpi update stumpy_installed reduction).
Local Abbreviation predict := (_predict update reduction).
Local Abbreviation run_stream :=
  (stream stumpi update stumpy_installed reduction).

(** A profile no longer than the warm-up region is zeroed whole. *)
Lemma zero_obj_all_zero (n : Z) o :
  Z.of_nat (length (_left_P o)) <= n ->
  Forall (fun q => q == 0)%Q (_left_P (zero_obj (Some n) o)).
Proof.
  intros Hn.
  rewrite <- (firstn_all2 (n := Z.to_nat n) (_left_P (zero_obj (Some n) o)))
    by (rewrite zero_obj_length; lia).
  apply zero_obj_prefix. lia.
Qed.

(** X8: [lmp[:n_init_train] = 0] counts windows, not points.  When the
    series has no more than [n_init_train] windows
    ([len(X) - window_size + 1 <= n_init_train]), every score that
    [fit_predict] returns is 0; in stream mode, every score returned by the
    first [window_size - 1] calls of [predict] is 0. *)
Theorem warm_up_covers_whole_profile X d n X_train X_stream ds :
  stumpy_installed = true ->
  profile_lengths stumpi update ->
  array_as_scalar update ->
  reduction_zero reduction ->
  3 <= window_size d <= Z.of_nat (length X) ->
  n_init_train d = Some n ->
  window_size d <= n ->
  1 <= k d <= Z.of_nat (length X) - window_size d ->
  Z.of_nat (length X) - window_size d + 1 <= n ->
  3 <= window_size ds <= Z.of_nat (length X_train) ->
  1 <= k ds <= Z.of_nat (length X_train) - window_size ds ->
  (exists scores d',
      fit_predict X d = (Ok scores, d')
      /\ length scores = length X
      /\ Forall (fun q => q == 0)%Q scores)
  /\ (exists outs ds',
         run_stream X_train X_stream ds = (Ok outs, ds')
         /\ forall j score,
             nth_error outs j = Some score ->
             Z.of_nat j + 2 <= window_size ds ->
             Forall (fun q => q == 0)%Q score).
Proof.
  intros Hinst Hlen Harr Hred Hw Hn Hwn Hk Hshort Hws Hks. split.
  - pose proof (batch_obj_length stumpi update d X n Hlen Hw Hn Hwn) as HL.
    eexists. eexists. split; [|split].
    + apply fit_predict_ok with (n := n); assumption.
    + rewrite reverse_windowing_length. lia.
    + apply reverse_windowing_all_zero; [exact Hred | lia | lia |].
      unfold batch_obj in *. rewrite Hn in *.
      apply zero_obj_all_zero. rewrite zero_obj_length in HL. lia.
  - eexists. eexists. split; [apply stream_ok; assumption|].
    intros j score Hj Hjw. rewrite nth_error_map in Hj.
    set (stop := Z.of_nat (length X_train)) in *.
    destruct (nth_error (stream_objs update (Some stop) _ X_stream) j)
      as [o'|] eqn:Eo; [|discriminate].
    simpl in Hj. injection Hj as <-.
    pose proof (stream_objs_length stumpi update _ _ _ _ _ Hlen Harr Eo) as HL.
    pose proof (fresh_obj_length stumpi update ds X_train Hlen) as Hf.
    pose proof (stream_objs_zeroed update stop
                  (fresh_obj stumpi ds X_train) X_stream
                  (Nat2Z.is_nonneg _)) as Hz.
    rewrite Forall_forall in Hz.
    specialize (Hz o' (nth_error_In _ _ Eo)).
    apply reverse_windowing_all_zero; [exact Hred | lia | lia |].
    rewrite firstn_all2 in Hz by (unfold stop; lia). exact Hz.
Qed.

(** After [j + 1] calls of [predict] the object is the one that the same
    updates, followed by one zeroing, produce. *)
Lemma stream_objs_nth (n : Z) xs o ob j o' :
  0 <= n ->
  update_appends update ->
  array_as_scalar update ->
  zero_obj (Some n) o = zero_obj (Some n) ob ->
  nth_error (stream_objs update (Some n) o xs) j = Some o' ->
  o' = zero_obj (Some n) (update_all update ob (firstn (S j) xs)).
Proof.
  intros Hn Happ Harr. revert o ob j.
  induction xs as [|x xs IH]; intros o ob j Heq Hj.
  - destruct j; discriminate.
  - pose proof (zero_obj_step update n o ob x Hn Happ Harr Heq) as Hstep.
    destruct j as [|j]; simpl in Hj.
    + injection Hj as <-.
      rewrite (zero_obj_idempotent n _ Hn) in Hstep. exact Hstep.
    + change (update_all update ob (firstn (S (S j)) (x :: xs)))
        with (update_all update (update ob (Scalar x)) (firstn (S j) xs)).
      apply (IH _ _ _ Hstep Hj).
Qed.

(** X9: where [fit] accepts the training segment, each call of [predict] in
    stream mode returns the scores that [fit_predict], with
    [n_init_train = len(X_train)], returns for the points seen so far. *)
Theorem each_predict_returns_batch_scores X_train X_stream d ds :
  stumpy_installed = true ->
  update_appends update ->
  array_as_scalar update ->
  n_init_train d = Some (Z.of_nat (length X_train)) ->
  hyperparameters ds = hyperparameters d ->
  3 <= window_size d <= Z.of_nat (length X_train) ->
  1 <= k d <= Z.of_nat (length X_train) - window_size d ->
  exists outs ds',
    run_stream X_train X_stream ds = (Ok outs, ds')
    /\ length outs = length X_stream
    /\ forall j score,
        nth_error outs j = Some score ->
        fst (fit_predict (X_train ++ firstn (S j) X_stream) d) = Ok score.
Proof.
  intros Hinst Happ Harr Hn Hhyp Hw Hk.
  unfold hyperparameters in Hhyp. injection Hhyp as Hws Hnz Hp Hks.
  eexists. eexists. split; [|split].
  - apply stream_ok; [exact Hinst | rewrite Hws; exact Hw
                      | rewrite Hws, Hks; exact Hk].
  - rewrite length_map. apply stream_objs_count.
  - intros j score Hj. rewrite nth_error_map in Hj.
    set (stop := Z.of_nat (length X_train)) in *.
    assert (Hfresh : fresh_obj stumpi ds X_train = fresh_obj stumpi d X_train).
    { unfold fresh_obj. rewrite Hws, Hnz, Hp, Hks. reflexivity. }
    rewrite Hfresh in Hj.
    destruct (nth_error (stream_objs update (Some stop) _ X_stream) j)
      as [o'|] eqn:Eo; [|discriminate].
    simpl in Hj. injection Hj as <-.
    apply (stream_objs_nth stop _ _ (fresh_obj stumpi d X_train))
      in Eo; [| unfold stop; lia | exact Happ | exact Harr | reflexivity].
    rewrite (fit_predict_ok stumpi update stumpy_installed reduction d
               (X_train ++ firstn (S j) X_stream) stop);
      [| exact Hinst | rewrite length_app; lia | exact Hn | lia
       | rewrite length_app; lia].
    cbn [fst]. unfold batch_obj. rewrite Hn. fold stop.
    unfold stop at 2 3.
    rewrite slice_to_app_exact, slice_from_app_exact.
    rewrite Hws, Eo. reflexivity.
Qed.

(** X10: [predict] continues a batch.  After [fit_predict(X)] with
    [n_init_train <= len(X)], the call [predict([x])] returns the scores,
    and leaves the detector, that [fit_predict] returns and leaves for [X]
    extended by [x]. *)
Theorem predict_continues_fit_predict X x d n :
  stumpy_installed = true ->
  update_appends update ->
  array_as_scalar update ->
  3 <= window_size d <= Z.of_nat (length X) ->
  n_init_train d = Some n ->
  window_size d <= n <= Z.of_nat (length X) ->
  1 <= k d <= Z.of_nat (length X) - window_size d ->
  exists scores d1,
    fit_predict X d = (Ok scores, d1)
    /\ predict [x] d1 = fit_predict (X ++ [x]) d
    /\ exists scores' d2, predict [x] d1 = (Ok scores', d2).
Proof.
  intros Hinst Happ Harr Hw Hn Hwn Hk.
  eexists. eexists. split; [|split].
  - apply fit_predict_ok with (n := n); [assumption .. | lia | assumption].
  - rewrite (predict_ok update reduction
               (set_mp d (Some (batch_obj stumpi update d X)))
               (batch_obj stumpi update d X) [x] eq_refl).
    rewrite (fit_predict_ok stumpi update stumpy_installed reduction d
               (X ++ [x]) n);
      [| exact Hinst | rewrite length_app; simpl; lia | exact Hn | lia
       | rewrite length_app; simpl; lia].
    cbn [n_init_train window_size set_mp mp normalize p k].
    assert (Hobj : zero_obj (n_init_train d)
                     (update (batch_obj stumpi update d X) (Arr [x]))
                   = batch_obj stumpi update d (X ++ [x])).
    { unfold batch_obj. rewrite Hn.
      rewrite slice_to_app_within, slice_from_app_within by lia.
      unfold update_all at 2. rewrite fold_left_app. cbn [fold_left].
      fold (update_all update
              (fresh_obj stumpi d (slice_to (Some n) X))
              (slice_from (Some n) X)).
      set (U := update_all update _ _).
      rewrite <- (zero_obj_idempotent n
                    (update (zero_obj (Some n) U) (Arr [x]))) by lia.
      apply zero_obj_step; [lia | exact Happ | exact Harr |].
      apply zero_obj_idempotent. lia. }
    rewrite Hobj. reflexivity.
  - eexists. eexists.
    apply (predict_ok update reduction
             (set_mp d (Some (batch_obj stumpi update d X)))
             (batch_obj stumpi update d X) [x] eq_refl).
Qed.

End ScoresAcrossCalls.

(** ** Scores that later calls do not change *)

Lemma slice_fill_to_idempotent {A : Type} (n : Z) (v : A) (l : list A) :
  0 <= n ->
  slice_fill_to (Some n) v (slice_fill_to (Some n) v l)
  = slice_fill_to (Some n) v l.
Proof.
  intros Hn.
  rewrite <- (app_nil_r (slice_fill_to (Some n) v l)) at 1.
  rewrite slice_fill_to_absorb, app_nil_r by exact Hn. reflexivity.
Qed.

(** Zeroing the warm-up region of a profile with one more entry: the entries
    that were there are zeroed as before. *)
Lemma slice_fill_to_snoc {A : Type} (n : Z) (v : A) (l : list A) (a : A) :
  0 <= n ->
  exists c,
    slice_fill_to (Some n) v (l ++ [a]) = slice_fill_to (Some n) v l ++ [c].
Proof.
  intros Hn. unfold slice_fill_to. simpl.
  rewrite !slice_index_nonneg by exact Hn. rewrite length_app. simpl.
  destruct (Nat.le_gt_cases (Z.to_nat n) (length l)) as [Hle|Hgt].
  - exists a. rewrite !Nat.min_l by lia.
    rewrite skipn_app.
    replace (Z.to_nat n - length l)%nat with 0%nat by lia.
    simpl. rewrite app_assoc. reflexivity.
  - exists v. rewrite !Nat.min_r by lia.
    rewrite !skipn_all2 by (rewrite ?length_app; simpl; lia).
    rewrite !app_nil_r, repeat_app. reflexivity.
Qed.

Lemma nth_error_seq_lt (s len i : nat) :
  (i < len)%nat -> nth_error (seq s len) i = Some (s + i)%nat.
Proof.
  revert s i. induction len as [|len IH]; intros s i Hi; [lia|].
  destruct i as [|i]; simpl; [f_equal; lia|].
  rewrite IH by lia. f_equal. lia.
Qed.

(** The score of a point whose own window is in the profile does not depend
    on the windows that come after. *)
Lemma reverse_windowing_stable (reduction : list Q -> Q) (y t : list Q)
    (w : Z) (i : nat) :
  0 < w -> (i < length y)%nat ->
  nth_error (reverse_windowing reduction (y ++ t) w) i
  = nth_error (reverse_windowing reduction y w) i.
Proof.
  intros Hw Hi. unfold reverse_windowing.
  rewrite !nth_error_map, !nth_error_seq_lt
    by (rewrite ?length_app; lia).
  simpl. unfold covering. rewrite firstn_app.
  replace (S i - length y)%nat with 0%nat by lia.
  simpl. rewrite app_nil_r. reflexivity.
Qed.

Section SettledScores.

Context {St : Type}.
Variable stumpi : list Q -> Z -> bool -> bool -> Q -> Z -> stumpi_obj St.
Variable update : stumpi_obj St -> upd_arg -> stumpi_obj St.
Variable stumpy_installed : bool.
Variable reduction : list Q -> Q.

Implicit Types (d ds : LeftSTAMPi St) (X : list Q) (o : stumpi_obj St).

(** From an object whose warm-up region is zeroed, [predict] calls only add
    entries at the end of the profile. *)
Lemma stream_objs_extend (n : Z) xs o j o' :
  0 <= n ->
  update_appends update ->
  array_as_scalar update ->
  nth_error (stream_objs update (Some n) (zero_obj (Some n) o) xs) j
  = Some o' ->
  exists t, _left_P o' = _left_P (zero_obj (Some n) o) ++ t.
Proof.
  intros Hn Happ Harr. revert o j.
  induction xs as [|x xs IH]; intros o j Hj.
  - destruct j; discriminate.
  - assert (Hone : exists c,
               _left_P (zero_obj (Some n)
                          (update (zero_obj (Some n) o) (Arr [x])))
               = _left_P (zero_obj (Some n) o) ++ [c]).
    { destruct Happ as (next_rest & next_dist & Happ).
      rewrite Harr, Happ. cbn [zero_obj _left_P rest].
      destruct (slice_fill_to_snoc n 0%Q
                  (slice_fill_to (Some n) 0%Q (_left_P o))
                  (next_dist (rest o) x) Hn) as [c Hc].
      exists c. rewrite Hc, slice_fill_to_idempotent by exact Hn.
      reflexivity. }
    destruct Hone as [c Hc].
    destruct j as [|j]; simpl in Hj.
    + injection Hj as <-. exists [c]. exact Hc.
    + apply IH in Hj. destruct Hj as [t Ht].
      exists (c :: t). rewrite Ht, Hc, <- app_assoc. reflexivity.
Qed.

Lemma stream_objs_later (n : Z) xs o j j' oj oj' :
  0 <= n ->
  update_appends update ->
  array_as_scalar update ->
  (j <= j')%nat ->
  nth_error (stream_objs update (Some n) o xs) j = Some oj ->
  nth_error (stream_objs update (Some n) o xs) j' = Some oj' ->
  exists t, _left_P oj' = _left_P oj ++ t.
Proof.
  intros Hn Happ Harr. revert o j j'.
  induction xs as [|x xs IH]; intros o j j' Hle Hj Hj'.
  - destruct j; discriminate.
  - destruct j as [|j]; simpl in Hj.
    + injection Hj as <-.
      destruct j' as [|j']; simpl in Hj'.
      * injection Hj' as <-. exists []. rewrite app_nil_r. reflexivity.
      * apply (stream_objs_extend n xs _ j' oj' Hn Happ Harr Hj').
    + destruct j' as [|j']; [lia|]. simpl in Hj'.
      apply (IH (zero_obj (Some n) (update o (Arr [x]))) j j');
        [lia | exact Hj | exact Hj'].
Qed.

(** X11: in stream mode the score of a point is settled once the window that
    starts at the point is complete: if call [j] returned [s], and point [i]
    has [i + window_size <= len(s)], every later call returns the same score
    for point [i]. *)
Theorem settled_scores_do_not_change X_train X_stream ds :
  stumpy_installed = true ->
  update_appends update ->
  array_as_scalar update ->
  3 <= window_size ds <= Z.of_nat (length X_train) ->
  1 <= k ds <= Z.of_nat (length X_train) - window_size ds ->
  exists outs ds',
    stream stumpi update stumpy_installed reduction X_train X_stream ds
    = (Ok outs, ds')
    /\ length outs = length X_stream
    /\ forall j j' s s' i,
        (j <= j')%nat ->
        nth_error outs j = Some s ->
        nth_error outs j' = Some s' ->
        Z.of_nat i + window_size ds <= Z.of_nat (length s) ->
        nth_error s' i = nth_error s i.
Proof.
  intros Hinst Happ Harr Hw Hk.
  eexists. eexists. split; [apply stream_ok; assumption|].
  split; [rewrite length_map; apply stream_objs_count|].
  intros j j' s s' i Hle Hj Hj' Hi.
  rewrite nth_error_map in Hj, Hj'.
  set (stop := Z.of_nat (length X_train)) in *.
  destruct (nth_error (stream_objs update (Some stop) _ X_stream) j)
    as [oj|] eqn:Ej; [|discriminate].
  destruct (nth_error (stream_objs update (Some stop) _ X_stream) j')
    as [oj'|] eqn:Ej'; [|discriminate].
  simpl in Hj, Hj'. injection Hj as <-. injection Hj' as <-.
  destruct (stream_objs_later stop _ _ j j' oj oj'
              ltac:(unfold stop; lia) Happ Harr Hle Ej Ej') as [t Ht].
  rewrite Ht. rewrite reverse_windowing_length in Hi.
  apply reverse_windowing_stable; lia.
Qed.

End SettledScores.

(** ** The further properties on concrete inputs *)


Lemma warm_up_covers_whole_profile_witness :
  (exists scores d',
      _fit_predict ref_stumpi ref_update true Qmean X10 late_detector
      = (Ok scores, d')
      /\ length scores = length X10
      /\ Forall (fun q => q == 0)%Q scores)
  /\ (exists outs ds',
         stream ref_stumpi ref_update true Qmean X10_train X10_stream
           stream_detector
         = (Ok outs, ds')
         /\ forall j score,
             nth_error outs j = Some score ->
             Z.of_nat j + 2 <= window_size stream_detector ->
             Forall (fun q => q == 0)%Q score).
Proof.
  apply (warm_up_covers_whole_profile ref_stumpi ref_update true Qmean
           X10 late_detector 8 X10_train X10_stream stream_detector);
    try reflexivity; try (simpl; lia).
  - apply ref_profile_lengths.
  - apply ref_array_as_scalar.
  - apply Qmean_zero.
Defined.

Lemma each_predict_returns_batch_scores_witness :
  exists outs ds',
    stream ref_stumpi ref_update true Qmean X10_train X10_stream
      stream_detector
    = (Ok outs, ds')
    /\ length outs = length X10_stream
    /\ forall j score,
        nth_error outs j = Some score ->
        fst (_fit_predict ref_stumpi ref_update true Qmean
               (X10_train ++ firstn (S j) X10_stream) batch4_detector)
        = Ok score.
Proof.
  apply (each_predict_returns_batch_scores ref_stumpi ref_update true Qmean
           X10_train X10_stream batch4_detector stream_detector);
    try reflexivity; try (simpl; lia).
  - apply ref_update_appends.
  - apply ref_array_as_scalar.
Defined.

Lemma predict_continues_fit_predict_witness :
  exists scores d1,
    _fit_predict ref_stumpi ref_update true Qmean X10_train batch_detector
    = (Ok scores, d1)
    /\ _predict ref_update Qmean [9 # 100]%Q d1
       = _fit_predict ref_stumpi ref_update true Qmean
           (X10_train ++ [9 # 100]%Q) batch_detector
    /\ exists scores' d2,
        _predict ref_update Qmean [9 # 100]%Q d1 = (Ok scores', d2).
Proof.
  apply (predict_continues_fit_predict ref_stumpi ref_update true Qmean
           X10_train (9 # 100)%Q batch_detector 3);
    try reflexivity; try (simpl; lia).
  - apply ref_update_appends.
  - apply ref_array_as_scalar.
Defined.

Lemma settled_scores_do_not_change_witness :
  exists outs ds',
    stream ref_stumpi ref_update true Qmean X10_train X10_stream
      stream_detector
    = (Ok outs, ds')
    /\ length outs = length X10_stream
    /\ forall j j' s s' i,
        (j <= j')%nat ->
        nth_error outs j = Some s ->
        nth_error outs j' = Some s' ->
        Z.of_nat i + window_size stream_detector <= Z.of_nat (length s) ->
        nth_error s' i = nth_error s i.
Proof.
  apply (settled_scores_do_not_change ref_stumpi ref_update true Qmean
           X10_train X10_stream stream_detector);
    try reflexivity; try (simpl; lia).
  - apply ref_update_appends.
  - apply ref_array_as_scalar.
Defined.
